(** * University-week calendar and working-day counter of [uob_utils.py]

    A shallow embedding of the date functions of [uob_utils.py]
    ([AugustBankHoliday], [WeekOne], [UniversityWeek],
    [DateFromUniversityWeek], [AcademicYear], [TermWeek],
    [FindCorrespondingDate], [days_since_deadline]) and of the permissions
    check of [MailAPI], together with the parts of Python's [datetime] and
    [calendar] modules they call, and the properties the specification
    states about them.

    Python exceptions are modelled by the [result] type; integers are [Z];
    a [date] is the (year, month, day) triple Python stores, ordered
    lexicographically, with date arithmetic going through the proleptic
    Gregorian ordinal exactly as [datetime.py] does. *)

From Stdlib Require Import ZArith List Bool Lia.
From Stdlib Require Ascii.
Import ListNotations.
Open Scope Z_scope.

(** ** Exceptions *)

Inductive exn : Type :=
| ValueError      (* datetime.date(...) with fields out of range *)
| OverflowError   (* date + timedelta leaving 0001-01-01 .. 9999-12-31 *)
| IndexError      (* xs[i] on a list too short *)
| SystemExit.     (* sys.exit(...) *)

Inductive result (A : Type) : Type :=
| Ok (a : A)
| Raise (e : exn).
Arguments Ok {A} a.
Arguments Raise {A} e.

Definition bind {A B : Type} (r : result A) (k : A -> result B) : result B :=
  match r with
  | Ok a => k a
  | Raise e => Raise e
  end.

Notation "x <- r ;; k" := (bind r (fun x => k))
  (at level 61, r at next level, right associativity).

(** [list(f(x) for x in xs)]: the first exception aborts the whole list. *)
Fixpoint mapM {A B : Type} (f : A -> result B) (xs : list A) : result (list B) :=
  match xs with
  | [] => Ok []
  | x :: xs' => y <- f x ;; ys <- mapM f xs' ;; Ok (y :: ys)
  end.

(** [range(lo, hi)] *)
Definition range (lo hi : Z) : list Z :=
  map (fun k => lo + Z.of_nat k) (seq 0 (Z.to_nat (hi - lo))).

(** ** Python's [datetime] module *)

Module PyDatetime.

Definition MINYEAR : Z := 1.
Definition MAXYEAR : Z := 9999.
Definition _MAXORDINAL : Z := 3652059.

Definition _DAYS_IN_MONTH (m : Z) : Z :=
  match m with
  | 1 => 31 | 2 => 28 | 3 => 31 | 4 => 30 | 5 => 31 | 6 => 30
  | 7 => 31 | 8 => 31 | 9 => 30 | 10 => 31 | 11 => 30 | 12 => 31
  | _ => -1
  end.

Definition _DAYS_BEFORE_MONTH (m : Z) : Z :=
  match m with
  | 1 => 0 | 2 => 31 | 3 => 59 | 4 => 90 | 5 => 120 | 6 => 151
  | 7 => 181 | 8 => 212 | 9 => 243 | 10 => 273 | 11 => 304 | 12 => 334
  | _ => -1
  end.

Definition _is_leap (year : Z) : bool :=
  (year mod 4 =? 0) && (negb (year mod 100 =? 0) || (year mod 400 =? 0)).

Definition _days_before_year (year : Z) : Z :=
  let y := year - 1 in
  y * 365 + y / 4 - y / 100 + y / 400.

Definition _days_in_month (year month : Z) : Z :=
  if (month =? 2) && _is_leap year then 29 else _DAYS_IN_MONTH month.

Definition b2z (b : bool) : Z := if b then 1 else 0.

Definition _days_before_month (year month : Z) : Z :=
  _DAYS_BEFORE_MONTH month + b2z ((month >? 2) && _is_leap year).

Definition _ymd2ord (year month day : Z) : Z :=
  _days_before_year year + _days_before_month year month + day.

Definition _DI400Y : Z := 146097.
Definition _DI100Y : Z := 36524.
Definition _DI4Y : Z := 1461.

Definition _ord2ymd (n : Z) : Z * Z * Z :=
  let n := n - 1 in
  let n400 := n / _DI400Y in
  let n := n mod _DI400Y in
  let year := n400 * 400 + 1 in
  let n100 := n / _DI100Y in
  let n := n mod _DI100Y in
  let n4 := n / _DI4Y in
  let n := n mod _DI4Y in
  let n1 := n / 365 in
  let n := n mod 365 in
  let year := year + (n100 * 100 + n4 * 4 + n1) in
  if (n1 =? 4) || (n100 =? 4) then (year - 1, 12, 31)
  else
    let leapyear := (n1 =? 3) && (negb (n4 =? 24) || (n100 =? 3)) in
    let month := Z.shiftr (n + 50) 5 in
    let preceding := _DAYS_BEFORE_MONTH month + b2z ((month >? 2) && leapyear) in
    let '(month, preceding) :=
      if preceding >? n
      then (month - 1,
            preceding - (_DAYS_IN_MONTH (month - 1)
                         + b2z ((month - 1 =? 2) && leapyear)))
      else (month, preceding) in
    let n := n - preceding in
    (year, month, n + 1).

Definition _check_date_fields (year month day : Z) : bool :=
  (MINYEAR <=? year) && (year <=? MAXYEAR)
  && (1 <=? month) && (month <=? 12)
  && (1 <=? day) && (day <=? _days_in_month year month).

(** A [datetime.date] object. *)
Record date : Type := mkdate { year : Z; month : Z; day : Z }.

(** [datetime.date(year, month, day)] *)
Definition date_new (y m d : Z) : result date :=
  if _check_date_fields y m d then Ok (mkdate y m d) else Raise ValueError.

(** The dates a Python program can hold. *)
Definition valid_date (d : date) : Prop :=
  _check_date_fields (year d) (month d) (day d) = true.

Definition toordinal (d : date) : Z := _ymd2ord (year d) (month d) (day d).

Definition fromordinal (n : Z) : result date :=
  let '(y, m, d) := _ord2ymd n in date_new y m d.

(** [d.weekday()]: Monday is 0, Sunday is 6. *)
Definition weekday (d : date) : Z := (toordinal d + 6) mod 7.

(** Comparison is on the (year, month, day) triples. *)
Definition date_cmp (a b : date) : comparison :=
  match year a ?= year b with
  | Eq => match month a ?= month b with
          | Eq => day a ?= day b
          | c => c
          end
  | c => c
  end.

Definition date_eqb (a b : date) : bool :=
  match date_cmp a b with Eq => true | _ => false end.
Definition date_ltb (a b : date) : bool :=
  match date_cmp a b with Lt => true | _ => false end.
(** [a >= b] *)
Definition date_geb (a b : date) : bool :=
  match date_cmp a b with Lt => false | _ => true end.

(** [d + datetime.timedelta(days=n)] *)
Definition date_add_days (d : date) (n : Z) : result date :=
  let o := toordinal d + n in
  if (0 <? o) && (o <=? _MAXORDINAL) then fromordinal o
  else Raise OverflowError.

(** [(a - b).days] *)
Definition date_sub_days (a b : date) : Z := toordinal a - toordinal b.

(** [x in xs] for a list of dates *)
Definition date_in (x : date) (xs : list date) : bool :=
  existsb (date_eqb x) xs.

(** A naive [datetime.datetime]: its date and the time of day, kept as the
    number of microseconds since midnight. *)
Record datetime : Type := mkdatetime { date_part : date; micros : Z }.

Definition DAY_MICROS : Z := 86400 * 1000000.

Definition valid_datetime (t : datetime) : Prop :=
  valid_date (date_part t) /\ 0 <= micros t < DAY_MICROS.

(** [datetime.datetime(year, month, day)]: midnight of that day. *)
Definition datetime_new (y m d : Z) : result datetime :=
  dd <- date_new y m d ;; Ok (mkdatetime dd 0).

(** [t + datetime.timedelta(days=n)]: the time of day is kept. *)
Definition datetime_add_days (t : datetime) (n : Z) : result datetime :=
  let o := toordinal (date_part t) + n in
  if (0 <? o) && (o <=? _MAXORDINAL)
  then dd <- fromordinal o ;; Ok (mkdatetime dd (micros t))
  else Raise OverflowError.

(** [a - b] as a whole number of microseconds; [(a - b).total_seconds()] is
    this number divided by 10**6. *)
Definition datetime_sub_micros (a b : datetime) : Z :=
  (toordinal (date_part a) - toordinal (date_part b)) * DAY_MICROS
  + (micros a - micros b).

(** [t.weekday()] *)
Definition datetime_weekday (t : datetime) : Z := weekday (date_part t).

(** [math.ceil(a / b)] for [b > 0], in exact arithmetic: the least integer
    not below the quotient. *)
Definition ceil_div (a b : Z) : Z := - ((- a) / b).

End PyDatetime.

(** ** Python's [calendar] module *)

Module PyCalendar.
Import PyDatetime.

Definition isleap (year : Z) : bool :=
  (year mod 4 =? 0) && (negb (year mod 100 =? 0) || (year mod 400 =? 0)).

Definition mdays (m : Z) : Z :=
  match m with
  | 1 => 31 | 2 => 28 | 3 => 31 | 4 => 30 | 5 => 31 | 6 => 30
  | 7 => 31 | 8 => 31 | 9 => 30 | 10 => 31 | 11 => 30 | 12 => 31
  | _ => 0
  end.

(** [calendar.weekday(year, month, day)] *)
Definition weekday (year month day : Z) : result Z :=
  let year := if negb ((MINYEAR <=? year) && (year <=? MAXYEAR))
              then 2000 + year mod 400 else year in
  d <- date_new year month day ;; Ok (PyDatetime.weekday d).

(** [calendar.monthrange(year, month)]; [IllegalMonthError] is a
    [ValueError]. *)
Definition monthrange (year month : Z) : result (Z * Z) :=
  if negb ((1 <=? month) && (month <=? 12)) then Raise ValueError
  else
    day1 <- weekday year month 1 ;;
    let ndays := mdays month + b2z ((month =? 2) && isleap year) in
    Ok (day1, ndays).

Definition _prevmonth (year month : Z) : Z * Z :=
  if month =? 1 then (year - 1, 12) else (year, month - 1).

Definition _nextmonth (year month : Z) : Z * Z :=
  if month =? 12 then (year + 1, 1) else (year, month + 1).

Definition _monthlen (year month : Z) : Z :=
  mdays month + b2z ((month =? 2) && isleap year).

(** [Calendar(firstweekday).itermonthdays3(year, month)], as a list *)
Definition itermonthdays3 (firstweekday year month : Z)
  : result (list (Z * Z * Z)) :=
  r <- monthrange year month ;;
  let '(day1, ndays) := r in
  let days_before := (day1 - firstweekday) mod 7 in
  let days_after := (firstweekday - day1 - ndays) mod 7 in
  let '(y, m) := _prevmonth year month in
  let end_ := _monthlen y m + 1 in
  let '(y', m') := _nextmonth year month in
  Ok (map (fun d => (y, m, d)) (range (end_ - days_before) end_)
      ++ map (fun d => (year, month, d)) (range 1 (ndays + 1))
      ++ map (fun d => (y', m', d)) (range 1 (days_after + 1))).

(** [list(Calendar(firstweekday).itermonthdates(year, month))] *)
Definition itermonthdates (firstweekday year month : Z) : result (list date) :=
  l <- itermonthdays3 firstweekday year month ;;
  mapM (fun '(y, m, d) => date_new y m d) l.

(** [[dates[i:i+7] for i in range(0, len(dates), 7)]] *)
Definition weeks_of {A : Type} (dates : list A) : list (list A) :=
  map (fun k => firstn 7 (skipn (7 * k) dates))
      (seq 0 ((length dates + 6) / 7)).

(** [Calendar(firstweekday).monthdatescalendar(year, month)] *)
Definition monthdatescalendar (firstweekday year month : Z)
  : result (list (list date)) :=
  dates <- itermonthdates firstweekday year month ;;
  Ok (weeks_of dates).

End PyCalendar.

(** [xs[-1]] and [xs[0]] *)
Definition item_last {A : Type} (xs : list A) : result A :=
  match rev xs with
  | [] => Raise IndexError
  | x :: _ => Ok x
  end.

Definition item_first {A : Type} (xs : list A) : result A :=
  match xs with
  | [] => Raise IndexError
  | x :: _ => Ok x
  end.

(** ** The date functions of [uob_utils.py] *)

Import PyDatetime.

(** [WeekOne(year)]: the Monday of week 1 of the academic year. *)
Definition WeekOne (year : Z) : result date :=
  month <- PyCalendar.monthdatescalendar 4 year 8 ;;
  lastweek <- item_last month ;;
  friday <- item_first lastweek ;;
  monday <- date_add_days friday (- 4) ;;
  Ok monday.

(** [UniversityWeek(date)].  The source divides the day count by 7 in floating
    point and takes [math.floor]; the count is a non-negative integer below
    2**22, for which that is the integer quotient. *)
Definition UniversityWeek (d : date) : result Z :=
  w <- WeekOne (year d) ;;
  if date_geb d w then
    w1 <- WeekOne (year d) ;;
    Ok (date_sub_days d w1 / 7 + 1)
  else
    w0 <- WeekOne (year d - 1) ;;
    Ok (date_sub_days d w0 / 7 + 1).

(** [DateFromUniversityWeek(ayear, uweek, dow)] *)
Definition DateFromUniversityWeek (ayear uweek dow : Z) : result date :=
  w <- WeekOne ayear ;;
  d1 <- date_add_days w (7 * (uweek - 1)) ;;
  date_add_days d1 dow.

(** [AcademicYear(date)] *)
Definition AcademicYear (d : date) : result Z :=
  w <- WeekOne (year d) ;;
  if date_geb d w then Ok (year d) else Ok (year d - 1).

(** [TermWeek(date)]: the list [[term, term week, university week]]. *)
Definition TermWeek (d : date) : result (Z * Z * Z) :=
  uweek <- UniversityWeek d ;;
  if (uweek <=? 16) && (uweek >=? 5) then Ok (1, uweek - 5, uweek)
  else if (uweek <=? 31) && (uweek >=? 21) then Ok (2, uweek - 20, uweek)
  else if (uweek <=? 43) && (uweek >=? 36) then Ok (3, uweek - 35, uweek)
  else Ok (0, 0, uweek).

(** [FindCorrespondingDate(date, ayear)] *)
Definition FindCorrespondingDate (d : date) (ayear : Z) : result date :=
  uweek <- UniversityWeek d ;;
  DateFromUniversityWeek ayear uweek (weekday d).

(** ** The working-day counter of [uob_utils.py] *)

(** [for i in range(1, days_elapsed + 1)]: one less for each Saturday or
    Sunday among [deadline + i]. *)
Fixpoint remove_weekends (deadline : datetime) (indices : list Z) (days_elapsed : Z)
  : result Z :=
  match indices with
  | [] => Ok days_elapsed
  | i :: indices' =>
      date <- datetime_add_days deadline i ;;
      let day_of_the_week := datetime_weekday date in
      remove_weekends deadline indices'
        (if day_of_the_week >? 4 then days_elapsed - 1 else days_elapsed)
  end.

(** [for closed_day in closed_days]: one less for each closed day strictly
    between the deadline and today. *)
Definition remove_closed (today deadline : datetime)
  (closed_days : list datetime) (days_elapsed : Z) : Z :=
  fold_left
    (fun days_elapsed closed_day =>
       if (datetime_sub_micros today closed_day >? 0)
          && (datetime_sub_micros deadline closed_day <? 0)
       then days_elapsed - 1 else days_elapsed)
    closed_days days_elapsed.

(** [while working_days_from_deadline < DAYS_TO_MARK]: every unfolding of the
    loop body spends one unit of [fuel]; [None] means the fuel ran out before
    the loop ended. *)
Fixpoint marking_scan (fuel : nat) (DAYS_TO_MARK : Z) (closed_dates : list date)
  (deadline : datetime) (working_days_from_deadline days_from_deadline : Z)
  : option (result (Z * Z)) :=
  if working_days_from_deadline <? DAYS_TO_MARK then
    match fuel with
    | O => None
    | S fuel' =>
        match datetime_add_days deadline days_from_deadline with
        | Raise e => Some (Raise e)
        | Ok date =>
            let day_of_the_week := datetime_weekday date in
            let working_days_from_deadline :=
              if (day_of_the_week <? 5)
                 && negb (date_in (date_part date) closed_dates)
              then working_days_from_deadline + 1
              else working_days_from_deadline in
            let days_from_deadline := days_from_deadline + 1 in
            if days_from_deadline >? 1000 then Some (Raise SystemExit)
            else marking_scan fuel' DAYS_TO_MARK closed_dates deadline
                   working_days_from_deadline days_from_deadline
        end
    end
  else Some (Ok (working_days_from_deadline, days_from_deadline)).

(** Lines 177-200 of [days_since_deadline], with the marking window, the
    closed days and the clock reading [today] as arguments.  The source
    computes [days_elapsed] with a floating-point division followed by
    [math.ceil]; here the quotient is exact, which is what the floating-point
    computation gives unless the two datetimes are centuries apart (a double
    then no longer resolves a microsecond). *)
Definition days_since_deadline_from (fuel : nat) (DAYS_TO_MARK : Z)
  (closed_days : list datetime) (today deadline : datetime)
  : option (result (Z * datetime * bool)) :=
  let closed_dates := map date_part closed_days in
  let days_elapsed := ceil_div (datetime_sub_micros today deadline) DAY_MICROS in
  match remove_weekends deadline (range 1 (days_elapsed + 1)) days_elapsed with
  | Raise e => Some (Raise e)
  | Ok days_elapsed =>
      let days_elapsed := remove_closed today deadline closed_days days_elapsed in
      match marking_scan fuel DAYS_TO_MARK closed_dates deadline 0 1 with
      | None => None
      | Some (Raise e) => Some (Raise e)
      | Some (Ok (_, days_from_deadline)) =>
          Some (marking_deadline <-
                  datetime_add_days deadline (days_from_deadline - 1) ;;
                let is_working_day :=
                  (datetime_weekday today <? 5)
                  && negb (date_in (date_part today) closed_dates) in
                Ok (days_elapsed - 1, marking_deadline, is_working_day))
      end
  end.

Definition DAYS_TO_MARK : Z := 15.

Definition READABLE_CLOSED_DAYS : list (Z * Z * Z) :=
  [ (2022, 12, 19); (2022, 12, 20); (2022, 12, 21); (2022, 12, 22); (2022, 12, 23);
    (2022, 12, 26); (2022, 12, 27); (2022, 12, 28); (2022, 12, 29); (2022, 12, 30);
    (2023, 1, 2);
    (2023, 4, 7); (2023, 4, 10); (2023, 4, 11); (2023, 4, 12);
    (2023, 5, 1); (2023, 5, 29); (2023, 8, 28) ].

(** [days_since_deadline(deadline)], where [today] is what
    [datetime.datetime.now()] returned. *)
Definition days_since_deadline (fuel : nat) (today deadline : datetime)
  : option (result (Z * datetime * bool)) :=
  match mapM (fun '(y, m, d) => datetime_new y m d) READABLE_CLOSED_DAYS with
  | Raise e => Some (Raise e)
  | Ok closed_days =>
      days_since_deadline_from fuel DAYS_TO_MARK closed_days today deadline
  end.

(** ** Quantities the specification talks about *)

(** The composition [DateFromUniversityWeek(AcademicYear(d), UniversityWeek(d),
    d.weekday())]. *)
Definition week_roundtrip (d : date) : result date :=
  ayear <- AcademicYear d ;;
  uweek <- UniversityWeek d ;;
  DateFromUniversityWeek ayear uweek (weekday d).

(** The term table of the specification, on week numbers. *)
Definition term_of_week (uweek : Z) : Z :=
  if (5 <=? uweek) && (uweek <=? 16) then 1
  else if (21 <=? uweek) && (uweek <=? 31) then 2
  else if (36 <=? uweek) && (uweek <=? 43) then 3
  else 0.

(** Order of [datetime] values: the date first, then the time of day. *)
Definition datetime_ltb (a b : datetime) : bool :=
  match date_cmp (date_part a) (date_part b) with
  | Lt => true
  | Eq => micros a <? micros b
  | Gt => false
  end.

(** [ceil((today - deadline) in seconds / 86400)] *)
Definition raw_elapsed (today deadline : datetime) : Z :=
  ceil_div (datetime_sub_micros today deadline) DAY_MICROS.

(** The day with ordinal [o] is a Saturday or a Sunday. *)
Definition weekend_ordinal (o : Z) : bool := (o + 6) mod 7 >? 4.

(** Saturdays and Sundays among [deadline + 1 .. deadline + n]. *)
Definition weekend_count (deadline : datetime) (n : Z) : Z :=
  Z.of_nat (length (filter
    (fun i => weekend_ordinal (toordinal (date_part deadline) + i))
    (range 1 (n + 1)))).

(** Closed days [c] with [deadline < c] and [c < today]. *)
Definition closed_count (today deadline : datetime)
  (closed_days : list datetime) : Z :=
  Z.of_nat (length (filter
    (fun c => datetime_ltb deadline c && datetime_ltb c today) closed_days)).

(** The date with ordinal [o] (1 January of year 1 outside the range). *)
Definition date_of_ordinal (o : Z) : date :=
  match fromordinal o with
  | Ok d => d
  | Raise _ => mkdate 1 1 1
  end.

(** A date is a working day: Monday to Friday and not a closed date. *)
Definition working_date (closed_dates : list date) (d : date) : bool :=
  (weekday d <? 5) && negb (date_in d closed_dates).

(** Working days among [deadline + 1 .. deadline + k]. *)
Definition working_days_upto (closed_dates : list date) (deadline : datetime)
  (k : Z) : Z :=
  Z.of_nat (length (filter
    (fun i => working_date closed_dates
                (date_of_ordinal (toordinal (date_part deadline) + i)))
    (range 1 (k + 1)))).

(** Mondays to Fridays among [deadline + 1 .. deadline + k]. *)
Definition weekdays_upto (deadline : datetime) (k : Z) : Z :=
  working_days_upto [] deadline k.

(** ** Auxiliary definitions for the proofs *)

(** The month and day part of [_ord2ymd]. *)
Definition month_day (leapyear : bool) (n : Z) : Z * Z :=
  let month := Z.shiftr (n + 50) 5 in
  let preceding := _DAYS_BEFORE_MONTH month + b2z ((month >? 2) && leapyear) in
  let '(month, preceding) :=
    if preceding >? n
    then (month - 1,
          preceding - (_DAYS_IN_MONTH (month - 1)
                       + b2z ((month - 1 =? 2) && leapyear)))
    else (month, preceding) in
  (month, n - preceding + 1).

(** The leap-year test of [_ord2ymd], on the cycle counters. *)
Definition leap_of (b c e : Z) : bool :=
  (e =? 3) && (negb (c =? 24) || (b =? 3)).

Definition month_len (leap : bool) (m : Z) : Z :=
  if (m =? 2) && leap then 29 else _DAYS_IN_MONTH m.

Definition month_off (leap : bool) (m : Z) : Z :=
  _DAYS_BEFORE_MONTH m + b2z ((m >? 2) && leap).

Definition month_day_ok (leap : bool) (r : Z) : bool :=
  let '(m, d) := month_day leap r in
  (1 <=? m) && (m <=? 12) && (1 <=? d)
  && (d <=? month_len leap m)
  && (month_off leap m + d - 1 =? r).

Definition month_day_inv_ok (leap : bool) (m d : Z) : bool :=
  if d <=? month_len leap m
  then let '(m', d') := month_day leap (month_off leap m + d - 1) in
       (m' =? m) && (d' =? d)
  else true.

(** Day of August on which week 1 begins, from the weekday of 1 August. *)
Definition WeekOne_day (w1 : Z) : Z := 31 - (w1 + 30 - 4) mod 7 - 4.

(** The date [WeekOne] returns for a year the [datetime] module accepts. *)
Definition WeekOne_date (y : Z) : date :=
  mkdate y 8 (WeekOne_day (weekday (mkdate y 8 1))).

(** The first week one there is: [WeekOne(1)]. *)
Definition FIRST_WEEK_ONE : date := mkdate 1 8 27.

(** What is known of [t'] when [t + timedelta(days=n)] returned it. *)
Definition shifted (t : datetime) (n : Z) (t' : datetime) : Prop :=
  1 <= toordinal (date_part t) + n <= _MAXORDINAL /\
  valid_date (date_part t') /\
  toordinal (date_part t') = toordinal (date_part t) + n /\
  micros t' = micros t /\
  date_part t' = date_of_ordinal (toordinal (date_part t) + n) /\
  datetime_weekday t' = (toordinal (date_part t) + n + 6) mod 7.

(** The closed days of the source, as the datetimes its list comprehension
    builds. *)
Definition closed_days_of_source : list datetime :=
  map (fun '(y, m, d) => mkdatetime (mkdate y m d) 0) READABLE_CLOSED_DAYS.

(** Days from a deadline to the fifteenth Monday-to-Friday day after it, by
    the weekday of the deadline. *)
Definition fifteenth_weekday_offset (w : Z) : Z :=
  if w =? 5 then 20 else if w =? 6 then 19 else 21.

(** The [n] days after [deadline], each as a closed day. *)
Definition all_closed_after (deadline : datetime) (n : Z) : list datetime :=
  map (fun i => mkdatetime
                  (date_of_ordinal (toordinal (date_part deadline) + i)) 0)
      (range 1 (n + 1)).

(** Ordinals of the first and of the last closed day of the source
    (19 December 2022 and 28 August 2023). *)
Definition FIRST_CLOSED_ORDINAL : Z := 738508.
Definition LAST_CLOSED_ORDINAL : Z := 738760.

(** A bounded loop ended with a value. *)
Definition returned {A : Type} (x : option (result A)) : bool :=
  match x with
  | Some (Ok _) => true
  | _ => false
  end.

(** ** Sample inputs *)

(** Monday 6 March 2023, 17:00, and the Friday after it at noon. *)
Definition monday_deadline : datetime :=
  mkdatetime (mkdate 2023 3 6) 61200000000.
Definition friday_today : datetime :=
  mkdatetime (mkdate 2023 3 10) 43200000000.

(** Wednesday 5 April 2023 at noon, before the Easter closure, and Thursday
    13 April 2023 at noon, after it. *)
Definition easter_deadline : datetime :=
  mkdatetime (mkdate 2023 4 5) 43200000000.
Definition easter_today : datetime :=
  mkdatetime (mkdate 2023 4 13) 43200000000.

(** ** Further functions of [uob_utils.py] *)

(** [AugustBankHoliday(year)]: [calendar.Calendar()] starts its weeks on
    Monday. *)
Definition AugustBankHoliday (year : Z) : result date :=
  month <- PyCalendar.monthdatescalendar 0 year 8 ;;
  lastweek <- item_last month ;;
  monday <- item_first lastweek ;;
  Ok monday.

(** Day of August of the bank holiday, from the weekday of 1 August. *)
Definition AugustBankHoliday_day (w1 : Z) : Z := 31 - (w1 + 30) mod 7.

(** The date [AugustBankHoliday] returns for a year the [datetime] module
    accepts. *)
Definition AugustBankHoliday_date (y : Z) : date :=
  mkdate y 8 (AugustBankHoliday_day (weekday (mkdate y 8 1))).

(** The last day the scan of [days_since_deadline] can reach: day 999 after
    the deadline, or the last day of year 9999 if that comes first. *)
Definition scan_horizon (deadline : datetime) : Z :=
  Z.min 999 (_MAXORDINAL - toordinal (date_part deadline)).


(** ** The built-ins behind the credentials check of [MailAPI] *)

Module PyBuiltins.

Import Ascii.

(** The octal digits of [n >= 0], most significant first, put in front of
    [acc]. *)
Fixpoint oct_digits (fuel : nat) (n : Z) (acc : list Z) : list Z :=
  match fuel with
  | O => n :: acc
  | S fuel' =>
      if n <? 8 then n :: acc
      else oct_digits fuel' (n / 8) (n mod 8 :: acc)
  end.

Definition digit_char (d : Z) : ascii := ascii_of_nat (48 + Z.to_nat d).

(** [oct(n)] for [n >= 0]: the prefix [0o], then the digits.  A number has
    no more octal digits than binary ones. *)
Definition oct (n : Z) : list ascii :=
  "0"%char :: "o"%char
  :: map digit_char (oct_digits (S (Z.to_nat (Z.log2 n))) n []).

(** [s[-3:]]: the last three characters, or all of a shorter string. *)
Definition last_three (s : list ascii) : list ascii :=
  skipn (length s - 3) s.

Definition digit_value (c : ascii) : option Z :=
  let n := Z.of_nat (nat_of_ascii c) in
  if (48 <=? n) && (n <=? 57) then Some (n - 48) else None.

Fixpoint int_digits (s : list ascii) (acc : Z) : result Z :=
  match s with
  | [] => Ok acc
  | c :: s' =>
      match digit_value c with
      | Some v => int_digits s' (10 * acc + v)
      | None => Raise ValueError
      end
  end.

(** [int(s)] on a string of digits and letters: decimal digits only, and at
    least one. *)
Definition int (s : list ascii) : result Z :=
  match s with
  | [] => Raise ValueError
  | _ => int_digits s 0
  end.

(** The number a list of octal digits stands for. *)
Definition oct_value (digits : list Z) : Z :=
  fold_left (fun a d => 8 * a + d) digits 0.

End PyBuiltins.

(** [permissions = int(oct(os.stat(...).st_mode)[-3:])] in
    [MailAPI.__init__], as a function of [st_mode]. *)
Definition permissions (st_mode : Z) : result Z :=
  PyBuiltins.int (PyBuiltins.last_three (PyBuiltins.oct st_mode)).

(** [permissions not in [400, 600]]: the credentials file is refused. *)
Definition permissions_refused (st_mode : Z) : result bool :=
  permissions <- permissions st_mode ;;
  Ok (negb ((permissions =? 400) || (permissions =? 600))).

(** * Facts about the [datetime] model *)

Module PyDatetimeFacts.
Import PyDatetime.


Lemma divmod_lin k q r :
  0 <= r < k -> (k * q + r) / k = q /\ (k * q + r) mod k = r.
Proof.
  intros H. split; [ symmetry; apply (Z.div_unique _ k q r) | symmetry; apply (Z.mod_unique _ k q r) ];
    auto; lia.
Qed.

Lemma year_params y :
  1 <= y ->
  exists a b c e,
    0 <= a /\ 0 <= b < 4 /\ 0 <= c < 25 /\ 0 <= e < 4 /\
    y = 400 * a + 100 * b + 4 * c + e + 1 /\
    _days_before_year y = 146097 * a + 36524 * b + 1461 * c + 365 * e /\
    _is_leap y = leap_of b c e.
Proof.
  intros Hy.
  exists ((y - 1) / 400), ((y - 1) mod 400 / 100),
    ((y - 1) mod 100 / 4), ((y - 1) mod 4).
  set (a := (y - 1) / 400). set (b := (y - 1) mod 400 / 100).
  set (c := (y - 1) mod 100 / 4). set (e := (y - 1) mod 4).
  assert (Hyd : y = 400 * a + 100 * b + 4 * c + e + 1 /\
                0 <= a /\ 0 <= b < 4 /\ 0 <= c < 25 /\ 0 <= e < 4).
  { subst a b c e. (Z.div_mod_to_equations; lia). }
  clearbody a b c e. destruct Hyd as (Hyd & Ha & Hb & Hc & He).
  repeat split; try lia.
  - unfold _days_before_year.
    replace (y - 1) with (400 * a + (100 * b + 4 * c + e)) by lia.
    destruct (divmod_lin 400 a (100 * b + 4 * c + e)) as [-> _]; [lia|].
    replace (400 * a + (100 * b + 4 * c + e)) with (100 * (4 * a + b) + (4 * c + e)) by lia.
    destruct (divmod_lin 100 (4 * a + b) (4 * c + e)) as [-> _]; [lia|].
    replace (100 * (4 * a + b) + (4 * c + e)) with (4 * (100 * a + 25 * b + c) + e) by lia.
    destruct (divmod_lin 4 (100 * a + 25 * b + c) e) as [-> _]; [lia|].
    lia.
  - unfold _is_leap, leap_of.
    assert (E4 : y mod 4 = (e + 1) mod 4).
    { subst y. replace (400 * a + 100 * b + 4 * c + e + 1) with ((e + 1) + (100 * a + 25 * b + c) * 4) by lia.
      apply Z.mod_add. lia. }
    assert (E100 : y mod 100 = (4 * c + e + 1) mod 100).
    { subst y. replace (400 * a + 100 * b + 4 * c + e + 1) with ((4 * c + e + 1) + (4 * a + b) * 100) by lia.
      apply Z.mod_add. lia. }
    assert (E400 : y mod 400 = (100 * b + 4 * c + e + 1) mod 400).
    { subst y. replace (400 * a + 100 * b + 4 * c + e + 1) with ((100 * b + 4 * c + e + 1) + a * 400) by lia.
      apply Z.mod_add. lia. }
    rewrite E4, E100, E400. clear E4 E100 E400 Hyd Hy.
    apply eq_true_iff_eq.
    rewrite !andb_true_iff, !orb_true_iff, !negb_true_iff, !Z.eqb_eq, !Z.eqb_neq.
    (Z.div_mod_to_equations; lia).
Qed.

Lemma ord2ymd_unfold n :
  _ord2ymd n =
  let n0 := n - 1 in
  let n400 := n0 / _DI400Y in
  let r400 := n0 mod _DI400Y in
  let n100 := r400 / _DI100Y in
  let r100 := r400 mod _DI100Y in
  let n4 := r100 / _DI4Y in
  let r4 := r100 mod _DI4Y in
  let n1 := r4 / 365 in
  let r1 := r4 mod 365 in
  let year := n400 * 400 + 1 + (n100 * 100 + n4 * 4 + n1) in
  if (n1 =? 4) || (n100 =? 4) then (year - 1, 12, 31)
  else let '(m, d) := month_day ((n1 =? 3) && (negb (n4 =? 24) || (n100 =? 3))) r1 in
       (year, m, d).
Proof.
  unfold _ord2ymd, month_day. cbv zeta.
  destruct ((_ =? 4) || _); [reflexivity|].
  destruct (_ >? _); reflexivity.
Qed.

Lemma eqb_false_lt a b : a < b -> (a =? b) = false.
Proof. intros; apply Z.eqb_neq; lia. Qed.

Lemma ord2ymd_of_offset y r :
  1 <= y -> 0 <= r < 365 + b2z (_is_leap y) ->
  _ord2ymd (_days_before_year y + r + 1) =
  let '(m, d) := month_day (_is_leap y) r in (y, m, d).
Proof.
  intros Hy Hr.
  destruct (year_params y Hy) as (a & b & c & e & Ha & Hb & Hc & He & Hyd & Hdby & Hleap).
  rewrite ord2ymd_unfold, Hdby, Hleap in *. cbv zeta. unfold _DI400Y, _DI100Y, _DI4Y.
  replace (146097 * a + 36524 * b + 1461 * c + 365 * e + r + 1 - 1)
    with (146097 * a + (36524 * b + 1461 * c + 365 * e + r)) by lia.
  assert (Hl : leap_of b c e = true -> e = 3 /\ (c <> 24 \/ b = 3)).
  { unfold leap_of. rewrite andb_true_iff, orb_true_iff, negb_true_iff, !Z.eqb_eq, Z.eqb_neq. tauto. }
  assert (Hr' : r < 365 \/ (r = 365 /\ e = 3 /\ c < 24) \/
                (r = 365 /\ e = 3 /\ c = 24 /\ b = 3)).
  { destruct (leap_of b c e); cbn [b2z] in Hr; [|lia].
    destruct Hl as (? & ?); auto. lia. }
  destruct (divmod_lin 146097 a (36524 * b + 1461 * c + 365 * e + r)) as [-> ->]; [lia|].
  assert (Hr0 : 0 <= r) by lia. clear Hr Hl.
  destruct Hr' as [Hlt | [(-> & -> & Hc24) | (-> & -> & -> & ->)]].
  - replace (36524 * b + 1461 * c + 365 * e + r) with (36524 * b + (1461 * c + 365 * e + r)) by lia.
    destruct (divmod_lin 36524 b (1461 * c + 365 * e + r)) as [-> ->]; [lia|].
    replace (1461 * c + 365 * e + r) with (1461 * c + (365 * e + r)) by lia.
    destruct (divmod_lin 1461 c (365 * e + r)) as [-> ->]; [lia|].
    destruct (divmod_lin 365 e r) as [-> ->]; [lia|].
    rewrite (eqb_false_lt e 4), (eqb_false_lt b 4) by lia. cbn [orb].
    fold (leap_of b c e).
    destruct (month_day _ _). f_equal. f_equal. lia.
  - replace (36524 * b + 1461 * c + 365 * 3 + 365) with (36524 * b + (1461 * c + 1460)) by lia.
    destruct (divmod_lin 36524 b (1461 * c + 1460)) as [-> ->]; [lia|].
    destruct (divmod_lin 1461 c 1460) as [-> ->]; [lia|].
    change (1460 / 365) with 4. change (4 =? 4) with true. cbn [orb].
    assert (leap_of b c 3 = true) as ->.
    { unfold leap_of. apply andb_true_iff; split; [reflexivity|].
      apply orb_true_iff; left. apply negb_true_iff, Z.eqb_neq; lia. }
    change (month_day true 365) with (12, 31). cbv beta iota. f_equal. f_equal. lia.
  - change (36524 * 3 + 1461 * 24 + 365 * 3 + 365) with 146096.
    change (leap_of 3 24 3) with true.
    change (month_day true 365) with (12, 31).
    change (146096 / 36524) with 4. change (146096 mod 36524) with 0.
    change (0 / 1461) with 0. change (0 mod 1461) with 0. change (0 / 365) with 0.
    change (4 =? 4) with true. rewrite orb_true_r. cbv beta iota. f_equal. f_equal. lia.
Qed.

Lemma in_range x lo hi : In x (range lo hi) <-> lo <= x < hi.
Proof.
  unfold range. rewrite in_map_iff. split.
  - intros (k & <- & Hk). apply in_seq in Hk. lia.
  - intros H. exists (Z.to_nat (x - lo)). split; [lia|]. apply in_seq. lia.
Qed.

Lemma forallb_range (P : Z -> bool) lo hi :
  forallb P (range lo hi) = true -> forall x, lo <= x < hi -> P x = true.
Proof.
  intros H x Hx. rewrite forallb_forall in H. apply H, in_range, Hx.
Qed.

Lemma month_day_spec leap r :
  0 <= r < 365 + b2z leap -> month_day_ok leap r = true.
Proof.
  destruct leap; cbn [b2z]; intros H.
  - apply (forallb_range (month_day_ok true) 0 (365 + 1)); [vm_compute; reflexivity | assumption].
  - apply (forallb_range (month_day_ok false) 0 (365 + 0)); [vm_compute; reflexivity | assumption].
Qed.

Lemma month_day_inv leap m d :
  1 <= m <= 12 -> 1 <= d <= month_len leap m ->
  month_day leap (month_off leap m + d - 1) = (m, d).
Proof.
  intros Hm Hd.
  assert (Hd31 : 1 <= d < 32).
  { split; [lia|]. destruct Hd as [_ Hd]. 
    assert (forallb (fun m => month_len leap m <=? 31) (range 1 13) = true)
      by (destruct leap; vm_compute; reflexivity).
    pose proof (forallb_range _ _ _ H m ltac:(lia)) as H1. cbv beta in H1. lia. }
  assert (H : forallb (fun m => forallb (month_day_inv_ok leap m) (range 1 32)) (range 1 13) = true)
    by (destruct leap; vm_compute; reflexivity).
  pose proof (forallb_range _ _ _ (forallb_range _ _ _ H m ltac:(lia)) d Hd31) as H1.
  unfold month_day_inv_ok in H1.
  destruct (d <=? _) eqn:E; [|lia].
  destruct (month_day _ _) as [m' d'].
  apply andb_true_iff in H1. rewrite !Z.eqb_eq in H1. destruct H1; congruence.
Qed.

Lemma is_leap_cases y :
  (_is_leap y = true /\ y mod 4 = 0 /\ (y mod 100 <> 0 \/ y mod 400 = 0)) \/
  (_is_leap y = false /\ (y mod 4 <> 0 \/ (y mod 100 = 0 /\ y mod 400 <> 0))).
Proof.
  unfold _is_leap.
  destruct (y mod 4 =? 0) eqn:E4; destruct (y mod 100 =? 0) eqn:E100;
    destruct (y mod 400 =? 0) eqn:E400; cbn [andb orb negb];
    rewrite ?Z.eqb_eq, ?Z.eqb_neq in *; intuition lia.
Qed.

Lemma days_before_year_succ y :
  1 <= y -> _days_before_year (y + 1) = _days_before_year y + 365 + b2z (_is_leap y).
Proof.
  intros Hy. unfold _days_before_year.
  replace (y + 1 - 1) with y by lia.
  destruct (is_leap_cases y) as [(-> & L)|(-> & L)]; cbn [b2z];
    (Z.div_mod_to_equations; lia).
Qed.

Lemma valid_date_bounds d :
  valid_date d ->
  1 <= year d <= 9999 /\ 1 <= month d <= 12 /\
  1 <= day d <= _days_in_month (year d) (month d).
Proof.
  unfold valid_date, _check_date_fields, MINYEAR, MAXYEAR.
  rewrite !andb_true_iff, !Z.leb_le. tauto.
Qed.

Lemma valid_date_intro y m d :
  1 <= y <= 9999 -> 1 <= m <= 12 -> 1 <= d <= _days_in_month y m ->
  valid_date (mkdate y m d).
Proof.
  unfold valid_date, _check_date_fields, MINYEAR, MAXYEAR. cbn [year month day].
  rewrite !andb_true_iff, !Z.leb_le. tauto.
Qed.

Lemma date_new_valid y m d :
  valid_date (mkdate y m d) -> date_new y m d = Ok (mkdate y m d).
Proof. unfold valid_date, date_new. cbn [year month day]. now intros ->. Qed.

Lemma date_new_inv y m d x :
  date_new y m d = Ok x -> x = mkdate y m d /\ valid_date x.
Proof.
  unfold date_new. destruct (_check_date_fields y m d) eqn:E; [|discriminate].
  intros [= <-]. split; [reflexivity|exact E].
Qed.

Lemma month_off_bounds leap m :
  1 <= m <= 12 ->
  0 <= month_off leap m /\ month_off leap m + month_len leap m <= 365 + b2z leap.
Proof.
  intros Hm.
  assert (H : forallb (fun m => (0 <=? month_off leap m)
                        && (month_off leap m + month_len leap m <=? 365 + b2z leap))
                (range 1 13) = true) by (destruct leap; vm_compute; reflexivity).
  pose proof (forallb_range _ _ _ H m ltac:(lia)) as H1. cbv beta in H1.
  apply andb_true_iff in H1. rewrite !Z.leb_le in H1. exact H1.
Qed.

Lemma month_off_mono leap m1 m2 :
  1 <= m1 -> m1 < m2 -> m2 <= 12 ->
  month_off leap m1 + month_len leap m1 <= month_off leap m2.
Proof.
  intros H1 H12 H2.
  assert (H : forallb (fun a => forallb (fun b =>
                 negb (a <? b) || (month_off leap a + month_len leap a <=? month_off leap b))
                 (range 1 13)) (range 1 13) = true)
    by (destruct leap; vm_compute; reflexivity).
  pose proof (forallb_range _ _ _ (forallb_range _ _ _ H m1 ltac:(lia)) m2 ltac:(lia)) as H3.
  cbv beta in H3. apply orb_true_iff in H3. destruct H3 as [H3|H3].
  - apply negb_true_iff, Z.ltb_ge in H3. lia.
  - apply Z.leb_le in H3. exact H3.
Qed.

Lemma fromordinal_toordinal d :
  valid_date d -> fromordinal (toordinal d) = Ok d.
Proof.
  intros Hv. destruct (valid_date_bounds d Hv) as (Hy & Hm & Hd).
  destruct d as [y m dd]. cbn [year month day] in *.
  unfold fromordinal, toordinal, _ymd2ord. cbn [year month day].
  pose proof (month_off_bounds (_is_leap y) m Hm) as Hb.
  change (_days_in_month y m) with (month_len (_is_leap y) m) in Hd.
  change (_days_before_month y m) with (month_off (_is_leap y) m).
  replace (_days_before_year y + month_off (_is_leap y) m + dd)
    with (_days_before_year y + (month_off (_is_leap y) m + dd - 1) + 1) by lia.
  rewrite ord2ymd_of_offset by lia.
  rewrite month_day_inv by (auto; lia).
  apply date_new_valid, Hv.
Qed.

Lemma year_of_ordinal n :
  1 <= n <= _MAXORDINAL ->
  exists y, 1 <= y <= 9999 /\ _days_before_year y < n <= _days_before_year (y + 1).
Proof.
  assert (H : forall k : nat, forall n,
             1 <= n <= _days_before_year (1 + Z.of_nat k) ->
             exists y, 1 <= y <= Z.of_nat k /\
                       _days_before_year y < n <= _days_before_year (y + 1)).
  { induction k as [|k IH]; intros m Hm.
    - change (_days_before_year (1 + Z.of_nat 0)) with 0 in Hm. lia.
    - destruct (Z_le_gt_dec m (_days_before_year (1 + Z.of_nat k))) as [Hle|Hgt].
      + destruct (IH m ltac:(lia)) as (y & Hy & Hb). exists y. split; [lia|exact Hb].
      + exists (1 + Z.of_nat k). split; [lia|]. split; [lia|].
        replace (1 + Z.of_nat k + 1) with (1 + Z.of_nat (S k)) by lia. lia. }
  intros Hn. destruct (H (Z.to_nat 9999) n) as (y & Hy & Hb).
  { replace (1 + Z.of_nat (Z.to_nat 9999)) with 10000 by lia. exact Hn. }
  exists y. split; [lia|exact Hb].
Qed.

Lemma toordinal_fromordinal n :
  1 <= n <= _MAXORDINAL ->
  exists d, fromordinal n = Ok d /\ valid_date d /\ toordinal d = n.
Proof.
  intros Hn. destruct (year_of_ordinal n Hn) as (y & Hy & Hlo & Hhi).
  rewrite days_before_year_succ in Hhi by lia.
  set (r := n - 1 - _days_before_year y).
  assert (Hr : 0 <= r < 365 + b2z (_is_leap y)) by lia.
  unfold fromordinal. replace n with (_days_before_year y + r + 1) by lia.
  rewrite ord2ymd_of_offset by lia.
  pose proof (month_day_spec (_is_leap y) r Hr) as Hok. unfold month_day_ok in Hok.
  destruct (month_day (_is_leap y) r) as [m dd].
  rewrite !andb_true_iff, !Z.leb_le, Z.eqb_eq in Hok.
  destruct Hok as ((((Hm1 & Hm2) & Hd1) & Hd2) & Hoff).
  assert (Hv : valid_date (mkdate y m dd)).
  { apply valid_date_intro; try lia.
    change (_days_in_month y m) with (month_len (_is_leap y) m). lia. }
  exists (mkdate y m dd). split; [apply date_new_valid, Hv|]. split; [exact Hv|].
  unfold toordinal, _ymd2ord. cbn [year month day].
  change (_days_before_month y m) with (month_off (_is_leap y) m). lia.
Qed.

Lemma days_before_year_mono y1 y2 :
  1 <= y1 -> y1 <= y2 -> _days_before_year y1 <= _days_before_year y2.
Proof.
  intros H1 H12. unfold _days_before_year.
  (Z.div_mod_to_equations; lia).
Qed.

Lemma toordinal_bounds d :
  valid_date d ->
  _days_before_year (year d) < toordinal d <= _days_before_year (year d + 1).
Proof.
  intros Hv. destruct (valid_date_bounds d Hv) as (Hy & Hm & Hd).
  rewrite days_before_year_succ by lia.
  unfold toordinal, _ymd2ord.
  change (_days_in_month (year d) (month d))
    with (month_len (_is_leap (year d)) (month d)) in Hd.
  change (_days_before_month (year d) (month d))
    with (month_off (_is_leap (year d)) (month d)).
  pose proof (month_off_bounds (_is_leap (year d)) (month d) Hm). lia.
Qed.

Lemma toordinal_lt a b :
  valid_date a -> valid_date b -> date_cmp a b = Lt -> toordinal a < toordinal b.
Proof.
  intros Ha Hb. unfold date_cmp.
  pose proof (toordinal_bounds a Ha) as Ba. pose proof (toordinal_bounds b Hb) as Bb.
  destruct (valid_date_bounds a Ha) as (Hya & Hma & Hda).
  destruct (valid_date_bounds b Hb) as (Hyb & Hmb & Hdb).
  destruct (Z.compare_spec (year a) (year b)) as [Ey|Ly|Gy]; try discriminate.
  - unfold toordinal, _ymd2ord. rewrite <- Ey in *.
    change (_days_in_month (year a) (month a))
      with (month_len (_is_leap (year a)) (month a)) in Hda.
    change (_days_before_month (year a) (month a))
      with (month_off (_is_leap (year a)) (month a)).
    change (_days_before_month (year a) (month b))
      with (month_off (_is_leap (year a)) (month b)).
    destruct (Z.compare_spec (month a) (month b)) as [Em|Lm|Gm]; try discriminate.
    + rewrite Em. intros Hd. rewrite Z.compare_lt_iff in Hd. lia.
    + intros _. pose proof (month_off_mono (_is_leap (year a)) (month a) (month b)). lia.
  - intros _. pose proof (days_before_year_mono (year a + 1) (year b)). lia.
Qed.

Lemma date_cmp_antisym a b : date_cmp b a = CompOpp (date_cmp a b).
Proof.
  unfold date_cmp.
  rewrite (Z.compare_antisym (year a) (year b)),
    (Z.compare_antisym (month a) (month b)), (Z.compare_antisym (day a) (day b)).
  destruct (year a ?= year b), (month a ?= month b), (day a ?= day b); reflexivity.
Qed.

Lemma date_cmp_eq a b : date_cmp a b = Eq -> a = b.
Proof.
  unfold date_cmp. destruct a, b. cbn [year month day].
  destruct (Z.compare_spec year0 year1); try discriminate.
  destruct (Z.compare_spec month0 month1); try discriminate.
  destruct (Z.compare_spec day0 day1); try discriminate.
  congruence.
Qed.

Lemma toordinal_compare a b :
  valid_date a -> valid_date b -> (toordinal a ?= toordinal b) = date_cmp a b.
Proof.
  intros Ha Hb. destruct (date_cmp a b) eqn:E.
  - apply date_cmp_eq in E. subst. apply Z.compare_refl.
  - apply Z.compare_lt_iff, toordinal_lt; auto.
  - apply Z.compare_gt_iff, toordinal_lt; auto.
    rewrite date_cmp_antisym, E. reflexivity.
Qed.


Lemma toordinal_range d : valid_date d -> 1 <= toordinal d <= _MAXORDINAL.
Proof.
  intros Hv. pose proof (toordinal_bounds d Hv) as B.
  destruct (valid_date_bounds d Hv) as (Hy & _).
  pose proof (days_before_year_mono 1 (year d) ltac:(lia) ltac:(lia)) as M1.
  pose proof (days_before_year_mono (year d + 1) 10000 ltac:(lia) ltac:(lia)) as M2.
  change (_days_before_year 1) with 0 in M1.
  change (_days_before_year 10000) with _MAXORDINAL in M2. lia.
Qed.

Lemma date_add_days_ok d n :
  valid_date d -> 1 <= toordinal d + n <= _MAXORDINAL ->
  exists d', date_add_days d n = Ok d' /\ valid_date d' /\
             toordinal d' = toordinal d + n.
Proof.
  intros Hv Hn. unfold date_add_days. cbv zeta.
  replace (0 <? toordinal d + n) with true by (symmetry; apply Z.ltb_lt; lia).
  replace (toordinal d + n <=? _MAXORDINAL) with true by (symmetry; apply Z.leb_le; lia).
  cbn [andb]. apply toordinal_fromordinal, Hn.
Qed.

Lemma date_add_days_overflow d n :
  ~ (1 <= toordinal d + n <= _MAXORDINAL) -> date_add_days d n = Raise OverflowError.
Proof.
  intros Hn. unfold date_add_days. cbv zeta.
  destruct (0 <? _) eqn:E1; [|reflexivity].
  destruct (_ <=? _MAXORDINAL) eqn:E2; [|reflexivity].
  apply Z.ltb_lt in E1. apply Z.leb_le in E2. lia.
Qed.

Lemma toordinal_inj a b :
  valid_date a -> valid_date b -> toordinal a = toordinal b -> a = b.
Proof.
  intros Ha Hb E. apply date_cmp_eq. rewrite <- toordinal_compare by auto.
  rewrite E. apply Z.compare_refl.
Qed.

Lemma date_add_days_same_month y m d n :
  valid_date (mkdate y m d) -> valid_date (mkdate y m (d + n)) ->
  date_add_days (mkdate y m d) n = Ok (mkdate y m (d + n)).
Proof.
  intros Hv Hv'.
  assert (E : toordinal (mkdate y m d) + n = toordinal (mkdate y m (d + n))).
  { unfold toordinal, _ymd2ord. cbn [year month day]. lia. }
  destruct (date_add_days_ok (mkdate y m d) n Hv) as (d' & -> & Hd' & Ho).
  { rewrite E. apply toordinal_range, Hv'. }
  f_equal. apply toordinal_inj; auto. lia.
Qed.

Lemma weekday_range d : 0 <= weekday d < 7.
Proof. unfold weekday. apply Z.mod_pos_bound. lia. Qed.

End PyDatetimeFacts.

Import PyDatetimeFacts.

(** * Week one *)

Lemma WeekOne_eq y :
  1 <= y <= 9999 -> WeekOne y = Ok (WeekOne_date y).
Proof.
  intros Hy. unfold WeekOne_date.
  assert (E1 : (1 <=? y) = true) by (apply Z.leb_le; lia).
  assert (E2 : (y <=? 9999) = true) by (apply Z.leb_le; lia).
  assert (Hnew : forall m d, date_new y m d =
            if (1 <=? m) && (m <=? 12) && (1 <=? d) && (d <=? _days_in_month y m)
            then Ok (mkdate y m d) else Raise ValueError).
  { intros m d. unfold date_new, _check_date_fields, MINYEAR, MAXYEAR.
    rewrite E1, E2. reflexivity. }
  unfold WeekOne, PyCalendar.monthdatescalendar, PyCalendar.itermonthdates,
    PyCalendar.itermonthdays3, PyCalendar.monthrange, PyCalendar.weekday,
    MINYEAR, MAXYEAR.
  rewrite E1, E2. cbn [andb negb Z.leb Z.compare Pos.compare Pos.compare_cont bind].
  rewrite Hnew. cbn [andb negb Z.leb Z.compare Pos.compare Pos.compare_cont bind].
  change (_days_in_month y 8) with 31.
  cbn [Z.leb Z.compare Pos.compare Pos.compare_cont bind].
  change (PyCalendar.mdays 8 + b2z ((8 =? 2) && PyCalendar.isleap y)) with 31.
  change (PyCalendar._prevmonth y 8) with (y, 7).
  change (PyCalendar._nextmonth y 8) with (y, 9).
  cbv beta iota.
  change (PyCalendar._monthlen y 7 + 1) with 32.
  assert (Hvalid : forall d, 1 <= d <= 31 -> valid_date (mkdate y 8 d)).
  { intros d Hd. apply valid_date_intro; try lia.
    change (_days_in_month y 8) with 31. exact Hd. }
  pose proof (weekday_range (mkdate y 8 1)) as Hw.
  set (w := weekday (mkdate y 8 1)) in *. clearbody w.
  assert (Hc : w = 0 \/ w = 1 \/ w = 2 \/ w = 3 \/ w = 4 \/ w = 5 \/ w = 6) by lia.
  destruct Hc as [-> | [-> | [-> | [-> | [-> | [-> | ->]]]]]].
  all: lazy - [date_new date_add_days WeekOne_day]; rewrite !Hnew.
  all: lazy - [date_add_days WeekOne_day].
  all: rewrite date_add_days_same_month by (apply Hvalid; lia).
  all: reflexivity.
Qed.

Lemma WeekOne_day_cases w :
  0 <= w < 7 ->
  21 <= WeekOne_day w <= 27 /\ (w + (WeekOne_day w - 1)) mod 7 = 0.
Proof.
  intros Hw.
  assert (Hc : w = 0 \/ w = 1 \/ w = 2 \/ w = 3 \/ w = 4 \/ w = 5 \/ w = 6) by lia.
  destruct Hc as [-> | [-> | [-> | [-> | [-> | [-> | ->]]]]]];
    vm_compute; intuition discriminate.
Qed.

Lemma valid_date_august y k :
  1 <= y <= 9999 -> 1 <= k <= 31 -> valid_date (mkdate y 8 k).
Proof.
  intros Hy Hk. apply valid_date_intro; try lia.
  change (_days_in_month y 8) with 31. exact Hk.
Qed.

Lemma toordinal_august y k :
  toordinal (mkdate y 8 k) = toordinal (mkdate y 8 1) + (k - 1).
Proof. unfold toordinal, _ymd2ord. cbn [year month day]. lia. Qed.

Lemma weekday_august y k :
  weekday (mkdate y 8 k) = (weekday (mkdate y 8 1) + (k - 1)) mod 7.
Proof.
  unfold weekday. rewrite (toordinal_august y k).
  rewrite Z.add_mod_idemp_l by lia. f_equal. lia.
Qed.

Lemma WeekOne_date_facts y :
  1 <= y <= 9999 ->
  valid_date (WeekOne_date y) /\ year (WeekOne_date y) = y /\
  month (WeekOne_date y) = 8 /\ 21 <= day (WeekOne_date y) <= 27 /\
  weekday (WeekOne_date y) = 0.
Proof.
  intros Hy. unfold WeekOne_date.
  destruct (WeekOne_day_cases _ (weekday_range (mkdate y 8 1))) as (Hk & Hm).
  cbn [year month day]. repeat split; try lia.
  - apply valid_date_august; lia.
  - rewrite weekday_august. exact Hm.
Qed.

Lemma WeekOne_year_zero : WeekOne 0 = Raise ValueError.
Proof. vm_compute. reflexivity. Qed.

Lemma WeekOne_first : WeekOne_date 1 = FIRST_WEEK_ONE.
Proof. vm_compute. reflexivity. Qed.

Lemma WeekOne_of_year_one : WeekOne 1 = Ok FIRST_WEEK_ONE.
Proof. vm_compute. reflexivity. Qed.

(** * Comparisons as ordinal arithmetic *)

Lemma date_geb_ordinal a b :
  valid_date a -> valid_date b ->
  date_geb a b = (toordinal b <=? toordinal a).
Proof.
  intros Ha Hb. unfold date_geb. rewrite <- toordinal_compare by auto.
  rewrite Z.leb_antisym. unfold Z.ltb.
  destruct (toordinal a ?= toordinal b); reflexivity.
Qed.

Lemma date_ltb_ordinal a b :
  valid_date a -> valid_date b ->
  date_ltb a b = (toordinal a <? toordinal b).
Proof.
  intros Ha Hb. unfold date_ltb. rewrite <- toordinal_compare by auto.
  unfold Z.ltb. destruct (toordinal a ?= toordinal b); reflexivity.
Qed.

Lemma date_eqb_eq a b : date_eqb a b = true <-> a = b.
Proof.
  unfold date_eqb. split.
  - destruct (date_cmp a b) eqn:E; try discriminate. intros _. apply date_cmp_eq, E.
  - intros ->. unfold date_cmp. rewrite !Z.compare_refl. reflexivity.
Qed.

Lemma earlier_year_lt a b :
  valid_date a -> valid_date b -> year a < year b -> toordinal a < toordinal b.
Proof.
  intros Ha Hb Hy. apply toordinal_lt; auto. unfold date_cmp.
  apply Z.compare_lt_iff in Hy. rewrite Hy. reflexivity.
Qed.

(** * The week functions in closed form *)

Lemma AcademicYear_eq d :
  valid_date d ->
  AcademicYear d =
  Ok (if date_geb d (WeekOne_date (year d)) then year d else year d - 1).
Proof.
  intros Hv. destruct (valid_date_bounds d Hv) as (Hy & _).
  unfold AcademicYear. rewrite WeekOne_eq by lia. cbn [bind].
  destruct (date_geb _ _); reflexivity.
Qed.

Lemma UniversityWeek_eq d :
  valid_date d ->
  UniversityWeek d =
  if date_geb d (WeekOne_date (year d))
  then Ok ((toordinal d - toordinal (WeekOne_date (year d))) / 7 + 1)
  else if 2 <=? year d
       then Ok ((toordinal d - toordinal (WeekOne_date (year d - 1))) / 7 + 1)
       else Raise ValueError.
Proof.
  intros Hv. destruct (valid_date_bounds d Hv) as (Hy & _).
  unfold UniversityWeek. rewrite WeekOne_eq by lia. cbn [bind].
  destruct (date_geb _ _); [reflexivity|].
  destruct (2 <=? year d) eqn:E.
  - apply Z.leb_le in E. rewrite WeekOne_eq by lia. reflexivity.
  - apply Z.leb_gt in E. replace (year d - 1) with 0 by lia.
    rewrite WeekOne_year_zero. reflexivity.
Qed.

(** The week-one Monday that anchors a date, when it exists. *)
Lemma anchor_facts d a :
  valid_date d -> AcademicYear d = Ok a -> 1 <= a ->
  1 <= a <= 9999 /\
  toordinal (WeekOne_date a) <= toordinal d /\
  UniversityWeek d = Ok ((toordinal d - toordinal (WeekOne_date a)) / 7 + 1).
Proof.
  intros Hv Ha H1. destruct (valid_date_bounds d Hv) as (Hy & _).
  rewrite AcademicYear_eq in Ha by auto. rewrite UniversityWeek_eq by auto.
  destruct (WeekOne_date_facts (year d) Hy) as (HvW & _).
  destruct (date_geb d (WeekOne_date (year d))) eqn:E.
  - injection Ha as <-. rewrite date_geb_ordinal in E by auto.
    apply Z.leb_le in E. auto.
  - injection Ha as <-.
    destruct (WeekOne_date_facts (year d - 1) ltac:(lia)) as (HvW' & HyW' & _).
    replace (2 <=? year d) with true by (symmetry; apply Z.leb_le; lia).
    split; [lia|]. split; [|reflexivity].
    apply Z.lt_le_incl, earlier_year_lt; auto. lia.
Qed.

Lemma DateFromUniversityWeek_inverse a d :
  1 <= a <= 9999 -> valid_date d ->
  toordinal (WeekOne_date a) <= toordinal d ->
  DateFromUniversityWeek a
    ((toordinal d - toordinal (WeekOne_date a)) / 7 + 1) (weekday d) = Ok d.
Proof.
  intros Ha Hv Hle.
  destruct (WeekOne_date_facts a Ha) as (HvW & _ & _ & _ & Hmon).
  pose proof (toordinal_range d Hv) as Rd.
  pose proof (toordinal_range _ HvW) as RW.
  unfold DateFromUniversityWeek. rewrite WeekOne_eq by auto. cbn [bind].
  set (oW := toordinal (WeekOne_date a)) in *. set (od := toordinal d) in *.
  unfold weekday in Hmon. fold oW in Hmon.
  assert (Hq : 0 <= 7 * ((od - oW) / 7) <= od - oW /\
               (od + 6) mod 7 = od - oW - 7 * ((od - oW) / 7)).
  { clearbody oW od. Z.div_mod_to_equations. lia. }
  destruct (date_add_days_ok (WeekOne_date a) (7 * ((od - oW) / 7 + 1 - 1)) HvW)
    as (d1 & -> & Hv1 & Ho1); [fold oW; lia|]. cbn [bind].
  destruct (date_add_days_ok d1 (weekday d) Hv1) as (d2 & -> & Hv2 & Ho2).
  { unfold weekday. fold od. rewrite Ho1. fold oW. lia. }
  f_equal. apply toordinal_inj; auto.
  rewrite Ho2, Ho1. unfold weekday. fold od oW. lia.
Qed.

(** * Week one is the Monday before the last Friday of August *)

(** C6. For every year [Y] the [datetime] module accepts, [WeekOne Y] returns a
    Monday of August of [Y]; four days later is a Friday of the same August,
    and no Friday of that August comes after it. *)
Theorem WeekOne_monday_before_last_august_friday (Y : Z) :
  MINYEAR <= Y <= MAXYEAR ->
  exists monday friday,
    WeekOne Y = Ok monday /\ valid_date monday /\
    year monday = Y /\ month monday = 8 /\ weekday monday = 0 /\
    date_add_days monday 4 = Ok friday /\
    year friday = Y /\ month friday = 8 /\ weekday friday = 4 /\
    (forall k, 1 <= k <= 31 -> weekday (mkdate Y 8 k) = 4 -> k <= day friday).
Proof.
  unfold MINYEAR, MAXYEAR. intros HY.
  destruct (WeekOne_date_facts Y HY) as (Hv & Hy & Hm & Hd & Hw).
  exists (WeekOne_date Y), (mkdate Y 8 (day (WeekOne_date Y) + 4)).
  rewrite WeekOne_eq by auto.
  assert (Hadd : date_add_days (WeekOne_date Y) 4
                 = Ok (mkdate Y 8 (day (WeekOne_date Y) + 4))).
  { unfold WeekOne_date in *. cbn [day] in *.
    apply date_add_days_same_month; apply valid_date_august; lia. }
  assert (Hfri : weekday (mkdate Y 8 (day (WeekOne_date Y) + 4)) = 4).
  { unfold WeekOne_date in *. cbn [day] in *.
    rewrite weekday_august in Hw |- *.
    pose proof (weekday_range (mkdate Y 8 1)).
    Z.div_mod_to_equations. lia. }
  cbn [year month day]. repeat split; auto.
  intros k Hk Hk4. rewrite weekday_august in Hfri, Hk4.
  pose proof (weekday_range (mkdate Y 8 1)).
  Z.div_mod_to_equations. lia.
Qed.

Lemma WeekOne_monday_before_last_august_friday_witness :
  exists monday friday,
    WeekOne 2014 = Ok monday /\ valid_date monday /\
    year monday = 2014 /\ month monday = 8 /\ weekday monday = 0 /\
    date_add_days monday 4 = Ok friday /\
    year friday = 2014 /\ month friday = 8 /\ weekday friday = 4 /\
    (forall k, 1 <= k <= 31 -> weekday (mkdate 2014 8 k) = 4 -> k <= day friday).
Proof.
  apply (WeekOne_monday_before_last_august_friday 2014).
  unfold MINYEAR, MAXYEAR. lia.
Defined.

(** * Academic year and the year boundary *)

(** C7. [AcademicYear d] is [d.year] when [d >= WeekOne(d.year)] and
    [d.year - 1] otherwise; the Sunday just before [WeekOne(Y)] is in academic
    year [Y - 1], and [WeekOne(Y)] itself is in academic year [Y], in
    university week 1. *)
Theorem AcademicYear_boundary (d : date) (Y : Z) :
  valid_date d -> MINYEAR <= Y <= MAXYEAR ->
  (exists w, WeekOne (year d) = Ok w /\
             AcademicYear d = Ok (if date_geb d w then year d else year d - 1)) /\
  (exists w sunday,
      WeekOne Y = Ok w /\ date_add_days w (- 1) = Ok sunday /\
      weekday sunday = 6 /\ AcademicYear sunday = Ok (Y - 1) /\
      AcademicYear w = Ok Y /\ UniversityWeek w = Ok 1).
Proof.
  unfold MINYEAR, MAXYEAR. intros Hv HY. split.
  - destruct (valid_date_bounds d Hv) as (Hy & _).
    exists (WeekOne_date (year d)). split; [apply WeekOne_eq; lia|].
    apply AcademicYear_eq, Hv.
  - destruct (WeekOne_date_facts Y HY) as (HvW & HyW & HmW & HdW & HwW).
    set (w := WeekOne_date Y) in *.
    set (s := mkdate Y 8 (day w + - 1)).
    assert (Hvs : valid_date s) by (apply valid_date_august; lia).
    assert (Hadd : date_add_days w (- 1) = Ok s).
    { subst s. unfold w, WeekOne_date in *. cbn [day] in *.
      apply date_add_days_same_month; apply valid_date_august; lia. }
    assert (Hos : toordinal s = toordinal w - 1).
    { subst s. unfold w, WeekOne_date. cbn [day].
      rewrite !(toordinal_august Y (_ + _)), (toordinal_august Y (WeekOne_day _)). lia. }
    exists w, s. split; [apply WeekOne_eq; auto|]. split; [exact Hadd|].
    split.
    { unfold weekday in *. rewrite Hos. Z.div_mod_to_equations. lia. }
    split.
    { rewrite AcademicYear_eq by auto. change (year s) with Y. fold w.
      rewrite date_geb_ordinal by auto.
      replace (toordinal w <=? toordinal s) with false
        by (symmetry; apply Z.leb_gt; lia). reflexivity. }
    split.
    { rewrite AcademicYear_eq by auto. rewrite HyW. fold w.
      rewrite date_geb_ordinal, Z.leb_refl by auto. reflexivity. }
    rewrite UniversityWeek_eq by auto. rewrite HyW. fold w.
    rewrite date_geb_ordinal, Z.leb_refl by auto.
    rewrite Z.sub_diag. reflexivity.
Qed.

Lemma AcademicYear_boundary_witness :
  (exists w, WeekOne 2015 = Ok w /\
             AcademicYear (mkdate 2015 1 12)
             = Ok (if date_geb (mkdate 2015 1 12) w then 2015 else 2015 - 1)) /\
  (exists w sunday,
      WeekOne 2014 = Ok w /\ date_add_days w (- 1) = Ok sunday /\
      weekday sunday = 6 /\ AcademicYear sunday = Ok (2014 - 1) /\
      AcademicYear w = Ok 2014 /\ UniversityWeek w = Ok 1).
Proof.
  apply (AcademicYear_boundary (mkdate 2015 1 12) 2014).
  - reflexivity.
  - unfold MINYEAR, MAXYEAR. lia.
Defined.

(** * Inversion of the week mapping *)

(** C1, as the code has it. For every date on or after the first week one
    (27 August of year 1) the composition
    [DateFromUniversityWeek(AcademicYear(d), UniversityWeek(d), d.weekday())]
    returns [d], also when [d] is before its own year's week one; for the
    earlier dates of year 1 it raises [ValueError], since [WeekOne(0)] does. *)
Theorem week_roundtrip_inverse (d : date) :
  valid_date d ->
  week_roundtrip d = if date_geb d FIRST_WEEK_ONE then Ok d else Raise ValueError.
Proof.
  intros Hv. destruct (valid_date_bounds d Hv) as (Hy & _).
  assert (HvF : valid_date FIRST_WEEK_ONE) by reflexivity.
  unfold week_roundtrip.
  destruct (date_geb d FIRST_WEEK_ONE) eqn:E.
  - destruct (AcademicYear d) as [a|e] eqn:Ea;
      [|rewrite AcademicYear_eq in Ea by auto; discriminate].
    assert (H1 : 1 <= a).
    { rewrite AcademicYear_eq in Ea by auto.
      destruct (date_geb d (WeekOne_date (year d))) eqn:E2; injection Ea as <-; [lia|].
      destruct (Z.eq_dec (year d) 1) as [E1|]; [|lia].
      rewrite E1, WeekOne_first in E2. congruence. }
    destruct (anchor_facts d a Hv Ea H1) as (Ha & Hle & ->). cbn [bind].
    apply DateFromUniversityWeek_inverse; auto.
  - rewrite AcademicYear_eq, UniversityWeek_eq by auto. cbn [bind].
    rewrite date_geb_ordinal in E by auto. apply Z.leb_gt in E.
    assert (E1 : year d = 1).
    { destruct (Z.eq_dec (year d) 1) as [|N]; auto. exfalso.
      pose proof (earlier_year_lt FIRST_WEEK_ONE d HvF Hv).
      change (year FIRST_WEEK_ONE) with 1 in *. lia. }
    rewrite E1, WeekOne_first.
    rewrite date_geb_ordinal by auto.
    replace (toordinal FIRST_WEEK_ONE <=? toordinal d) with false
      by (symmetry; apply Z.leb_gt; lia).
    reflexivity.
Qed.

Lemma week_roundtrip_inverse_witness :
  week_roundtrip (mkdate 2015 1 12) = Ok (mkdate 2015 1 12).
Proof.
  exact (week_roundtrip_inverse (mkdate 2015 1 12) eq_refl).
Defined.

(** C1 as stated fails on 1 January of year 1, a valid date: the composition
    raises [ValueError] instead of returning the date. *)
Lemma week_roundtrip_first_day_raises :
  valid_date (mkdate 1 1 1) /\
  week_roundtrip (mkdate 1 1 1) = Raise ValueError /\
  week_roundtrip (mkdate 1 1 1) <> Ok (mkdate 1 1 1).
Proof.
  split; [reflexivity|]. split; [vm_compute; reflexivity|].
  vm_compute. discriminate.
Qed.

(** * Monotonicity of the week number *)

(** C8, as the code has it. For two dates [d1 < d2] of the same academic year
    [a >= 1], both university weeks are defined and
    [UniversityWeek d1 <= UniversityWeek d2]. *)
Theorem UniversityWeek_monotone (d1 d2 : date) (a : Z) :
  valid_date d1 -> valid_date d2 -> date_ltb d1 d2 = true ->
  AcademicYear d1 = Ok a -> AcademicYear d2 = Ok a -> 1 <= a ->
  exists w1 w2,
    UniversityWeek d1 = Ok w1 /\ UniversityWeek d2 = Ok w2 /\ w1 <= w2.
Proof.
  intros Hv1 Hv2 Hlt Ha1 Ha2 H1.
  destruct (anchor_facts d1 a Hv1 Ha1 H1) as (_ & Hle1 & ->).
  destruct (anchor_facts d2 a Hv2 Ha2 H1) as (_ & Hle2 & ->).
  rewrite date_ltb_ordinal in Hlt by auto. apply Z.ltb_lt in Hlt.
  eexists _, _. split; [reflexivity|]. split; [reflexivity|].
  apply Z.add_le_mono_r, Z.div_le_mono; lia.
Qed.

Lemma UniversityWeek_monotone_witness :
  exists w1 w2,
    UniversityWeek (mkdate 2014 12 31) = Ok w1 /\
    UniversityWeek (mkdate 2015 1 12) = Ok w2 /\ w1 <= w2.
Proof.
  apply (UniversityWeek_monotone (mkdate 2014 12 31) (mkdate 2015 1 12) 2014);
    try reflexivity. lia.
Defined.

(** C8 as stated fails for the first two days of year 1: they are valid, in
    order and in the same academic year (0), yet [UniversityWeek] raises
    [ValueError] on them, so the weeks cannot be compared. *)
Lemma UniversityWeek_first_days_raise :
  valid_date (mkdate 1 1 1) /\ valid_date (mkdate 1 1 2) /\
  date_ltb (mkdate 1 1 1) (mkdate 1 1 2) = true /\
  AcademicYear (mkdate 1 1 1) = AcademicYear (mkdate 1 1 2) /\
  UniversityWeek (mkdate 1 1 1) = Raise ValueError /\
  ~ (exists w1 w2, UniversityWeek (mkdate 1 1 1) = Ok w1 /\
                   UniversityWeek (mkdate 1 1 2) = Ok w2 /\ w1 <= w2).
Proof.
  repeat split; try (vm_compute; reflexivity).
  intros (w1 & w2 & H & _). vm_compute in H. discriminate.
Qed.

(** * Term classification *)

(** C2, as the code has it. [TermWeek] maps weeks 5-16 to term 1, 21-31 to
    term 2, 36-43 to term 3 and every other week to term 0 with term week 0.
    The term week is [uweek - 5] in term 1 (so week 5 is term week 0 and week
    16 is term week 11), [uweek - 20] in term 2 and [uweek - 35] in term 3. *)
Theorem TermWeek_by_week (d : date) (uweek : Z) :
  UniversityWeek d = Ok uweek ->
  (exists tw, TermWeek d = Ok (term_of_week uweek, tw, uweek)) /\
  (5 <= uweek <= 16 -> TermWeek d = Ok (1, uweek - 5, uweek)) /\
  (21 <= uweek <= 31 -> TermWeek d = Ok (2, uweek - 20, uweek)) /\
  (36 <= uweek <= 43 -> TermWeek d = Ok (3, uweek - 35, uweek)) /\
  (term_of_week uweek = 0 -> TermWeek d = Ok (0, 0, uweek)) /\
  (uweek = 5 -> TermWeek d = Ok (1, 0, 5)) /\
  (uweek = 16 -> TermWeek d = Ok (1, 11, 16)) /\
  (uweek = 4 \/ uweek = 17 -> TermWeek d = Ok (0, 0, uweek)).
Proof.
  intros Hu. unfold TermWeek, term_of_week. rewrite Hu. cbn [bind].
  rewrite !(Z.geb_leb uweek).
  destruct (uweek <=? 16) eqn:E1, (5 <=? uweek) eqn:E2,
           (uweek <=? 31) eqn:E3, (21 <=? uweek) eqn:E4,
           (uweek <=? 43) eqn:E5, (36 <=? uweek) eqn:E6;
    cbn [andb];
    rewrite ?Z.leb_le, ?Z.leb_gt in *; try lia;
    (split; [eexists; reflexivity|]);
    repeat split; intros; try reflexivity; try lia; try discriminate;
    subst; reflexivity.
Qed.

Lemma TermWeek_by_week_witness :
  (exists tw, TermWeek (mkdate 2014 9 22) = Ok (term_of_week 5, tw, 5)) /\
  (5 <= 5 <= 16 -> TermWeek (mkdate 2014 9 22) = Ok (1, 5 - 5, 5)) /\
  (21 <= 5 <= 31 -> TermWeek (mkdate 2014 9 22) = Ok (2, 5 - 20, 5)) /\
  (36 <= 5 <= 43 -> TermWeek (mkdate 2014 9 22) = Ok (3, 5 - 35, 5)) /\
  (term_of_week 5 = 0 -> TermWeek (mkdate 2014 9 22) = Ok (0, 0, 5)) /\
  (5 = 5 -> TermWeek (mkdate 2014 9 22) = Ok (1, 0, 5)) /\
  (5 = 16 -> TermWeek (mkdate 2014 9 22) = Ok (1, 11, 16)) /\
  (5 = 4 \/ 5 = 17 -> TermWeek (mkdate 2014 9 22) = Ok (0, 0, 5)).
Proof.
  apply (TermWeek_by_week (mkdate 2014 9 22) 5). vm_compute. reflexivity.
Defined.

(** C2 as stated fails on 22 September 2014, a date of university week 5:
    [TermWeek] returns term 1 with term week 0, not 1; and on 8 December 2014,
    of week 16, it returns term week 11, not 12. *)
Lemma TermWeek_week5_is_term_week_0 :
  UniversityWeek (mkdate 2014 9 22) = Ok 5 /\
  TermWeek (mkdate 2014 9 22) = Ok (1, 0, 5) /\
  TermWeek (mkdate 2014 9 22) <> Ok (1, 1, 5) /\
  UniversityWeek (mkdate 2014 12 8) = Ok 16 /\
  TermWeek (mkdate 2014 12 8) = Ok (1, 11, 16) /\
  TermWeek (mkdate 2014 12 8) <> Ok (1, 12, 16).
Proof.
  repeat split; try (vm_compute; reflexivity); vm_compute; discriminate.
Qed.

(** * Datetime arithmetic *)

Lemma datetime_add_days_ok t n :
  1 <= toordinal (date_part t) + n <= _MAXORDINAL ->
  exists t', datetime_add_days t n = Ok t' /\ shifted t n t'.
Proof.
  intros Hn. unfold datetime_add_days, shifted, date_of_ordinal, datetime_weekday, weekday.
  cbv zeta.
  replace (0 <? toordinal (date_part t) + n) with true
    by (symmetry; apply Z.ltb_lt; lia).
  replace (toordinal (date_part t) + n <=? _MAXORDINAL) with true
    by (symmetry; apply Z.leb_le; lia).
  cbn [andb].
  destruct (toordinal_fromordinal _ Hn) as (d & -> & Hv & Ho).
  cbn [bind]. eexists. split; [reflexivity|]. cbn [date_part micros].
  rewrite Ho. auto 10.
Qed.

Lemma datetime_add_days_overflow t n :
  ~ (1 <= toordinal (date_part t) + n <= _MAXORDINAL) ->
  datetime_add_days t n = Raise OverflowError.
Proof.
  intros Hn. unfold datetime_add_days. cbv zeta.
  destruct (0 <? _) eqn:E1; [|reflexivity].
  destruct (_ <=? _MAXORDINAL) eqn:E2; [|reflexivity].
  apply Z.ltb_lt in E1. apply Z.leb_le in E2. lia.
Qed.

Lemma datetime_add_days_inv t n t' :
  datetime_add_days t n = Ok t' -> shifted t n t'.
Proof.
  intros H.
  assert (Hn : 1 <= toordinal (date_part t) + n <= _MAXORDINAL).
  { destruct (Z_le_dec 1 (toordinal (date_part t) + n)) as [H1|H1];
      [destruct (Z_le_dec (toordinal (date_part t) + n) _MAXORDINAL) as [H2|H2]|];
      [lia| |].
    all: rewrite datetime_add_days_overflow in H by lia; discriminate. }
  destruct (datetime_add_days_ok t n Hn) as (t'' & E & Hs). congruence.
Qed.



Lemma datetime_sub_micros_pos a b :
  valid_datetime a -> valid_datetime b ->
  (datetime_sub_micros a b >? 0) = datetime_ltb b a.
Proof.
  intros (Hva & Hma) (Hvb & Hmb). unfold datetime_sub_micros, datetime_ltb.
  rewrite <- toordinal_compare by auto. unfold DAY_MICROS in *.
  destruct (Z.compare_spec (toordinal (date_part b)) (toordinal (date_part a))) as [E|E|E].
  - rewrite E, Z.sub_diag, Z.mul_0_l, Z.add_0_l.
    rewrite Z.gtb_ltb. destruct (Z.ltb_spec (micros b) (micros a));
      [apply Z.ltb_lt | apply Z.ltb_ge]; lia.
  - rewrite Z.gtb_ltb. apply Z.ltb_lt. nia.
  - rewrite Z.gtb_ltb. apply Z.ltb_ge. nia.
Qed.

Lemma datetime_sub_micros_neg a b :
  valid_datetime a -> valid_datetime b ->
  (datetime_sub_micros a b <? 0) = datetime_ltb a b.
Proof.
  intros Ha Hb. rewrite <- (datetime_sub_micros_pos b a) by auto.
  rewrite Z.gtb_ltb. unfold datetime_sub_micros.
  destruct (Z.ltb_spec ((toordinal (date_part a) - toordinal (date_part b)) * DAY_MICROS
                        + (micros a - micros b)) 0);
    symmetry; [apply Z.ltb_lt | apply Z.ltb_ge]; lia.
Qed.



(** * Lists of offsets *)

Lemma range_empty lo hi : hi <= lo -> range lo hi = [].
Proof.
  intros H. unfold range. replace (Z.to_nat (hi - lo)) with 0%nat by lia. reflexivity.
Qed.

Lemma range_snoc lo hi : lo <= hi -> range lo (hi + 1) = range lo hi ++ [hi].
Proof.
  intros H. unfold range.
  replace (Z.to_nat (hi + 1 - lo)) with (Z.to_nat (hi - lo) + 1)%nat by lia.
  rewrite seq_app, map_app. cbn [seq map]. do 2 f_equal. lia.
Qed.

Lemma count_snoc {A : Type} (p : A -> bool) (l : list A) (x : A) :
  Z.of_nat (length (filter p (l ++ [x])))
  = Z.of_nat (length (filter p l)) + b2z (p x).
Proof.
  rewrite filter_app, length_app. cbn [filter].
  destruct (p x); cbn [length b2z]; lia.
Qed.

Lemma fold_left_decrement {A : Type} (p : A -> bool) (l : list A) (n : Z) :
  fold_left (fun acc x => if p x then acc - 1 else acc) l n
  = n - Z.of_nat (length (filter p l)).
Proof.
  revert n. induction l as [|x l IH]; intros n; cbn [fold_left filter].
  - cbn. lia.
  - rewrite IH. destruct (p x); cbn [length]; lia.
Qed.

(** * The two counting passes *)

Section Passes.

Variable deadline : datetime.
Local Notation "'base'" := (toordinal (date_part deadline)).

Lemma remove_weekends_inv l days_elapsed r :
  remove_weekends deadline l days_elapsed = Ok r ->
  r = days_elapsed
      - Z.of_nat (length (filter (fun i => weekend_ordinal (base + i)) l)) /\
  Forall (fun i => 1 <= base + i <= _MAXORDINAL) l.
Proof.
  revert days_elapsed. induction l as [|i l IH]; intros de H; cbn [remove_weekends] in H.
  - injection H as <-. cbn. split; [lia|constructor].
  - destruct (datetime_add_days deadline i) as [date|e] eqn:E; [|discriminate].
    cbn [bind] in H.
    destruct (datetime_add_days_inv deadline i date E) as (Hn & _ & _ & _ & _ & Hw).
    rewrite Hw in H.
    destruct (IH _ H) as (Hr & HF). split; [|constructor; auto].
    cbn [filter]. unfold weekend_ordinal in *.
    destruct ((base + i + 6) mod 7 >? 4); cbn [length]; lia.
Qed.

Lemma remove_weekends_ok l days_elapsed :
  Forall (fun i => 1 <= base + i <= _MAXORDINAL) l ->
  remove_weekends deadline l days_elapsed
  = Ok (days_elapsed
        - Z.of_nat (length (filter (fun i => weekend_ordinal (base + i)) l))).
Proof.
  intros HF. revert days_elapsed.
  induction HF as [|i l Hi HF IH]; intros de; cbn [remove_weekends filter].
  - f_equal. cbn. lia.
  - destruct (datetime_add_days_ok deadline i Hi) as (date & -> & _ & _ & _ & _ & _ & Hw).
    cbn [bind]. rewrite Hw, IH. f_equal.
    unfold weekend_ordinal.
    destruct ((base + i + 6) mod 7 >? 4); cbn [length]; lia.
Qed.

Lemma remove_closed_count today closed_days days_elapsed :
  valid_datetime deadline -> valid_datetime today ->
  Forall valid_datetime closed_days ->
  remove_closed today deadline closed_days days_elapsed
  = days_elapsed - closed_count today deadline closed_days.
Proof.
  intros Hd Ht Hc. unfold remove_closed, closed_count.
  rewrite (fold_left_decrement
             (fun c => (datetime_sub_micros today c >? 0)
                       && (datetime_sub_micros deadline c <? 0))).
  do 3 f_equal. apply filter_ext_in. intros c Hin.
  rewrite Forall_forall in Hc.
  rewrite datetime_sub_micros_pos, datetime_sub_micros_neg by auto.
  apply andb_comm.
Qed.

End Passes.

(** * The marking-deadline scan *)

Section Scan.

Variable N : Z.
Variable closed_dates : list date.
Variable deadline : datetime.

Local Notation "'base'" := (toordinal (date_part deadline)).
Local Notation "'W'" := (working_days_upto closed_dates deadline).
Local Notation "'working' i" :=
  (working_date closed_dates (date_of_ordinal (base + i))) (at level 10).
Local Notation "'scan'" := (marking_scan).

Lemma working_days_upto_zero : W 0 = 0.
Proof. unfold working_days_upto. rewrite range_empty by lia. reflexivity. Qed.

Lemma working_days_upto_succ k :
  0 <= k -> W (k + 1) = W k + b2z (working (k + 1)).
Proof.
  intros Hk. unfold working_days_upto.
  rewrite (range_snoc 1 (k + 1)) by lia.
  apply (count_snoc (fun i => working i)).
Qed.

Lemma working_days_upto_step k :
  1 <= k -> W k = W (k - 1) + b2z (working k).
Proof.
  intros Hk. pose proof (working_days_upto_succ (k - 1) ltac:(lia)) as H.
  replace (k - 1 + 1) with k in H by lia. exact H.
Qed.

Lemma working_days_upto_mono j k : 0 <= j <= k -> W j <= W k.
Proof.
  intros H. replace k with (j + Z.of_nat (Z.to_nat (k - j))) by lia.
  induction (Z.to_nat (k - j)) as [|m IH].
  - rewrite Z.add_0_r. lia.
  - replace (j + Z.of_nat (S m)) with (j + Z.of_nat m + 1) by lia.
    rewrite working_days_upto_succ by lia.
    destruct (working _); cbn [b2z]; lia.
Qed.

Lemma marking_scan_done fuel wd j :
  N <= wd -> scan fuel N closed_dates deadline wd j = Some (Ok (wd, j)).
Proof.
  intros H. destruct fuel; cbn [marking_scan];
    replace (wd <? N) with false by (symmetry; apply Z.ltb_ge; lia); reflexivity.
Qed.

Lemma marking_scan_step fuel wd j :
  wd < N -> 1 <= base + j <= _MAXORDINAL ->
  scan (S fuel) N closed_dates deadline wd j
  = if j + 1 >? 1000 then Some (Raise SystemExit)
    else scan fuel N closed_dates deadline (wd + b2z (working j)) (j + 1).
Proof.
  intros Hwd Hj. cbn [marking_scan].
  replace (wd <? N) with true by (symmetry; apply Z.ltb_lt; lia).
  destruct (datetime_add_days_ok deadline j Hj)
    as (date & -> & _ & _ & _ & _ & Hd & _).
  cbv zeta. unfold datetime_weekday, working_date. rewrite Hd.
  destruct ((weekday (date_of_ordinal (base + j)) <? 5)
            && negb (date_in (date_of_ordinal (base + j)) closed_dates));
    cbn [b2z]; rewrite ?Z.add_0_r; reflexivity.
Qed.

Lemma marking_scan_overflow fuel wd j :
  wd < N -> ~ (1 <= base + j <= _MAXORDINAL) ->
  scan (S fuel) N closed_dates deadline wd j = Some (Raise OverflowError).
Proof.
  intros Hwd Hj. cbn [marking_scan].
  replace (wd <? N) with true by (symmetry; apply Z.ltb_lt; lia).
  rewrite datetime_add_days_overflow by exact Hj. reflexivity.
Qed.

(** The loop ends, whatever the input: from day [j <= 1000] it needs no
    more than [1001 - j] iterations. *)
Lemma marking_scan_total m : forall wd j,
  1 <= j <= 1000 -> Z.of_nat m = 1000 - j ->
  exists r, forall fuel, (S m <= fuel)%nat ->
    scan fuel N closed_dates deadline wd j = Some r.
Proof.
  induction m as [|m IH]; intros wd j Hj Hm.
  - destruct (Z_lt_dec wd N) as [Hwd|Hwd].
    + destruct (datetime_add_days deadline j) as [date|e] eqn:E.
      * exists (Raise SystemExit). intros [|fuel] Hf; [lia|].
        cbn [marking_scan]. rewrite E.
        replace (wd <? N) with true by (symmetry; apply Z.ltb_lt; lia).
        cbv zeta. replace (j + 1 >? 1000) with true; [reflexivity|].
        symmetry. rewrite Z.gtb_ltb. apply Z.ltb_lt. lia.
      * exists (Raise e). intros [|fuel] Hf; [lia|].
        cbn [marking_scan]. rewrite E.
        replace (wd <? N) with true by (symmetry; apply Z.ltb_lt; lia).
        reflexivity.
    + exists (Ok (wd, j)). intros fuel _. apply marking_scan_done. lia.
  - destruct (Z_lt_dec wd N) as [Hwd|Hwd].
    + destruct (datetime_add_days deadline j) as [date|e] eqn:E.
      * set (wd' := if (datetime_weekday date <? 5)
                       && negb (date_in (date_part date) closed_dates)
                    then wd + 1 else wd).
        destruct (IH wd' (j + 1) ltac:(lia) ltac:(lia)) as (r & Hr).
        exists r. intros [|fuel] Hf; [lia|].
        cbn [marking_scan]. rewrite E.
        replace (wd <? N) with true by (symmetry; apply Z.ltb_lt; lia).
        cbv zeta. replace (j + 1 >? 1000) with false.
        -- apply Hr. lia.
        -- symmetry. rewrite Z.gtb_ltb. apply Z.ltb_ge. lia.
      * exists (Raise e). intros [|fuel] Hf; [lia|].
        cbn [marking_scan]. rewrite E.
        replace (wd <? N) with true by (symmetry; apply Z.ltb_lt; lia).
        reflexivity.
    + exists (Ok (wd, j)). intros fuel _. apply marking_scan_done. lia.
Qed.

(** The scan returns at the first day on which the count reaches [N]. *)
Lemma marking_scan_finds k :
  0 <= base -> base + k <= _MAXORDINAL -> 1 <= k <= 999 ->
  W (k - 1) < N -> N <= W k ->
  forall m j fuel, 1 <= j <= k -> Z.of_nat m = k - j -> (S m <= fuel)%nat ->
    scan fuel N closed_dates deadline (W (j - 1)) j = Some (Ok (W k, k + 1)).
Proof.
  intros Hb Hmax Hk Hlt Hge.
  induction m as [|m IH]; intros j [|fuel] Hj Hm Hf; try lia.
  - assert (j = k) as -> by lia.
    rewrite marking_scan_step by lia.
    replace (k + 1 >? 1000) with false
      by (symmetry; rewrite Z.gtb_ltb; apply Z.ltb_ge; lia).
    rewrite <- working_days_upto_step by lia.
    apply marking_scan_done. exact Hge.
  - pose proof (working_days_upto_mono (j - 1) (k - 1) ltac:(lia)).
    rewrite marking_scan_step by lia.
    replace (j + 1 >? 1000) with false
      by (symmetry; rewrite Z.gtb_ltb; apply Z.ltb_ge; lia).
    rewrite <- working_days_upto_step by lia.
    replace j with (j + 1 - 1) at 1 by lia.
    apply IH; lia.
Qed.

(** The scan gives up after day 1000 when the count has not reached [N] by
    day 999. *)
Lemma marking_scan_exhausts :
  0 <= base -> base + 1000 <= _MAXORDINAL -> W 999 < N ->
  forall m j fuel, 1 <= j <= 1000 -> Z.of_nat m = 1000 - j -> (S m <= fuel)%nat ->
    scan fuel N closed_dates deadline (W (j - 1)) j = Some (Raise SystemExit).
Proof.
  intros Hb Hmax Hlt.
  induction m as [|m IH]; intros j [|fuel] Hj Hm Hf; try lia.
  - assert (j = 1000) as -> by lia.
    rewrite marking_scan_step by (change (1000 - 1) with 999; lia).
    reflexivity.
  - pose proof (working_days_upto_mono (j - 1) 999 ltac:(lia)).
    rewrite marking_scan_step by lia.
    replace (j + 1 >? 1000) with false
      by (symmetry; rewrite Z.gtb_ltb; apply Z.ltb_ge; lia).
    rewrite <- working_days_upto_step by lia.
    replace j with (j + 1 - 1) at 1 by lia.
    apply IH; lia.
Qed.

(** When the scan returns, the last day it looked at was a working day. *)
Lemma marking_scan_last_day fuel : forall wd j wd' j',
  scan fuel N closed_dates deadline wd j = Some (Ok (wd', j')) -> wd < N ->
  exists date,
    datetime_add_days deadline (j' - 1) = Ok date /\
    datetime_weekday date < 5 /\
    date_in (date_part date) closed_dates = false.
Proof.
  induction fuel as [|fuel IH]; intros wd j wd' j' H Hwd; cbn [marking_scan] in H;
    replace (wd <? N) with true in H by (symmetry; apply Z.ltb_lt; lia);
    [discriminate|].
  destruct (datetime_add_days deadline j) as [date|e] eqn:E; [|discriminate].
  cbv zeta in H. destruct (j + 1 >? 1000); [discriminate|].
  destruct ((datetime_weekday date <? 5)
            && negb (date_in (date_part date) closed_dates)) eqn:Ew.
  - destruct (Z_lt_dec (wd + 1) N) as [Hlt|Hge]; [eapply IH; eauto|].
    rewrite marking_scan_done in H by lia. injection H as <- <-.
    replace (j + 1 - 1) with j by lia. exists date. split; [exact E|].
    apply andb_true_iff in Ew. destruct Ew as (E1 & E2).
    apply Z.ltb_lt in E1. apply negb_true_iff in E2. auto.
  - eapply IH; eauto.
Qed.

End Scan.

(** * The working-day counter as a whole *)

Section Counter.

Variable N : Z.
Variable closed_days : list datetime.
Variables today deadline : datetime.

Local Notation "'base'" := (toordinal (date_part deadline)).
Local Notation "'raw'" := (raw_elapsed today deadline).
Local Notation "'closed_dates'" := (map date_part closed_days).

Lemma days_since_deadline_from_inv fuel e md w :
  days_since_deadline_from fuel N closed_days today deadline = Some (Ok (e, md, w)) ->
  exists de wd j,
    remove_weekends deadline (range 1 (raw + 1)) raw = Ok de /\
    marking_scan fuel N closed_dates deadline 0 1 = Some (Ok (wd, j)) /\
    datetime_add_days deadline (j - 1) = Ok md /\
    e = remove_closed today deadline closed_days de - 1 /\
    w = working_date closed_dates (date_part today).
Proof.
  unfold days_since_deadline_from, raw_elapsed. cbv zeta.
  destruct (remove_weekends _ _ _) as [de|?] eqn:E1; [|discriminate].
  destruct (marking_scan _ _ _ _ _ _) as [[[wd j]|?]|] eqn:E2; try discriminate.
  destruct (datetime_add_days deadline (j - 1)) as [md'|?] eqn:E3; [|discriminate].
  cbn [bind]. intros [= <- <- <-]. exists de, wd, j.
  repeat split; auto.
Qed.

Lemma days_since_deadline_from_ok fuel de wd j md :
  remove_weekends deadline (range 1 (raw + 1)) raw = Ok de ->
  marking_scan fuel N closed_dates deadline 0 1 = Some (Ok (wd, j)) ->
  datetime_add_days deadline (j - 1) = Ok md ->
  days_since_deadline_from fuel N closed_days today deadline
  = Some (Ok (remove_closed today deadline closed_days de - 1, md,
              working_date closed_dates (date_part today))).
Proof.
  unfold days_since_deadline_from, raw_elapsed. cbv zeta.
  intros -> -> ->. reflexivity.
Qed.

Lemma days_since_deadline_from_raise fuel de e :
  remove_weekends deadline (range 1 (raw + 1)) raw = Ok de ->
  marking_scan fuel N closed_dates deadline 0 1 = Some (Raise e) ->
  days_since_deadline_from fuel N closed_days today deadline = Some (Raise e).
Proof.
  unfold days_since_deadline_from, raw_elapsed. cbv zeta.
  intros -> ->. reflexivity.
Qed.

Lemma first_pass_ok :
  0 <= base -> base + raw <= _MAXORDINAL ->
  remove_weekends deadline (range 1 (raw + 1)) raw
  = Ok (raw - weekend_count deadline raw).
Proof.
  intros Hb Hr. unfold weekend_count. apply remove_weekends_ok.
  apply Forall_forall. intros i Hi. apply in_range in Hi. lia.
Qed.

End Counter.

Lemma valid_datetime_base t : valid_datetime t -> 1 <= toordinal (date_part t).
Proof. intros (Hv & _). apply toordinal_range, Hv. Qed.

Lemma weekday_of_ordinal t n :
  1 <= toordinal (date_part t) + n <= _MAXORDINAL ->
  weekday (date_of_ordinal (toordinal (date_part t) + n))
  = (datetime_weekday t + n) mod 7.
Proof.
  intros Hn.
  destruct (datetime_add_days_ok t n Hn) as (t' & _ & _ & _ & _ & _ & Hd & Hw).
  unfold datetime_weekday in Hw. rewrite Hd in Hw. rewrite Hw.
  unfold datetime_weekday, weekday. rewrite Z.add_mod_idemp_l by lia.
  f_equal. lia.
Qed.

Lemma working_days_upto_no_closed closed_dates deadline j :
  0 <= toordinal (date_part deadline) ->
  toordinal (date_part deadline) + j <= _MAXORDINAL ->
  (forall i, 1 <= i <= j ->
     date_in (date_of_ordinal (toordinal (date_part deadline) + i)) closed_dates
     = false) ->
  working_days_upto closed_dates deadline j
  = Z.of_nat (length (filter
      (fun i => (datetime_weekday deadline + i) mod 7 <? 5) (range 1 (j + 1)))).
Proof.
  intros Hb Hj Hnc. unfold working_days_upto. do 2 f_equal.
  apply filter_ext_in. intros i Hi. apply in_range in Hi.
  unfold working_date. rewrite Hnc by lia.
  rewrite weekday_of_ordinal by lia. apply andb_true_r.
Qed.

(** * Elapsed working days *)


(** * The marking deadline *)

(** C10. With a positive marking window (the source has 15), whenever the
    computation returns, the marking deadline is a working day: Monday to
    Friday, and not one of the closed dates. *)
Theorem marking_deadline_is_working_day (fuel : nat) (N : Z)
  (closed_days : list datetime) (today deadline : datetime)
  (e : Z) (md : datetime) (w : bool) :
  0 < N ->
  days_since_deadline_from fuel N closed_days today deadline = Some (Ok (e, md, w)) ->
  0 <= datetime_weekday md < 5 /\
  date_in (date_part md) (map date_part closed_days) = false.
Proof.
  intros HN H.
  destruct (days_since_deadline_from_inv _ _ _ _ _ _ _ _ H)
    as (de & wd & j & _ & H2 & H3 & _).
  destruct (marking_scan_last_day _ _ _ _ _ _ _ _ H2 HN) as (date & E & Hw & Hc).
  rewrite H3 in E. injection E as <-. split; [|exact Hc].
  split; [|exact Hw]. apply weekday_range.
Qed.


(** C5. The scan loop ends on every input, within 1000 iterations, and so
    does the whole computation; and when fewer than [N] working days lie
    among the first 999 days after the deadline (so also when fewer lie among
    the first 1000 or more, as when all of them are closed), it ends with
    [sys.exit]. *)
Theorem marking_scan_terminates (N : Z) (closed_days : list datetime)
  (today deadline : datetime) :
  (exists r, forall fuel, (1000 <= fuel)%nat ->
     marking_scan fuel N (map date_part closed_days) deadline 0 1 = Some r) /\
  (exists r, forall fuel, (1000 <= fuel)%nat ->
     days_since_deadline_from fuel N closed_days today deadline = Some r) /\
  (valid_datetime deadline ->
   toordinal (date_part deadline) + Z.max 1000 (raw_elapsed today deadline)
   <= _MAXORDINAL ->
   forall k, 999 <= k ->
     working_days_upto (map date_part closed_days) deadline k < N ->
     forall fuel, (1000 <= fuel)%nat ->
       days_since_deadline_from fuel N closed_days today deadline
       = Some (Raise SystemExit)).
Proof.
  destruct (marking_scan_total N (map date_part closed_days) deadline
              (Z.to_nat 999) 0 1 ltac:(lia) ltac:(lia)) as (r & Hr).
  assert (Hr' : forall fuel, (1000 <= fuel)%nat ->
            marking_scan fuel N (map date_part closed_days) deadline 0 1 = Some r).
  { intros fuel Hf. apply Hr. lia. }
  split; [exists r; exact Hr'|]. split.
  - unfold days_since_deadline_from. cbv zeta.
    destruct (remove_weekends _ _ _) as [de|e].
    + destruct r as [[wd j]|e].
      * eexists. intros fuel Hf. rewrite (Hr' fuel Hf). reflexivity.
      * eexists. intros fuel Hf. rewrite (Hr' fuel Hf). reflexivity.
    + eexists. intros fuel Hf. reflexivity.
  - intros Hd Hmax k Hk HW fuel Hf.
    pose proof (valid_datetime_base _ Hd) as Hb.
    pose proof (working_days_upto_mono (map date_part closed_days) deadline 999 k
                  ltac:(lia)) as Hm.
    eapply days_since_deadline_from_raise.
    + apply first_pass_ok; lia.
    + rewrite <- (working_days_upto_zero (map date_part closed_days) deadline).
      change 0 with (1 - 1) at 1.
      apply (marking_scan_exhausts N (map date_part closed_days) deadline
               ltac:(lia) ltac:(lia) ltac:(lia) (Z.to_nat 999) 1 fuel); lia.
Qed.

Lemma fifteenth_weekday_counts w :
  0 <= w < 7 ->
  19 <= fifteenth_weekday_offset w <= 21 /\
  Z.of_nat (length (filter (fun i => (w + i) mod 7 <? 5)
                      (range 1 (fifteenth_weekday_offset w - 1 + 1)))) = 14 /\
  Z.of_nat (length (filter (fun i => (w + i) mod 7 <? 5)
                      (range 1 (fifteenth_weekday_offset w + 1)))) = 15 /\
  (w + fifteenth_weekday_offset w) mod 7 < 5.
Proof.
  intros Hw.
  assert (Hc : w = 0 \/ w = 1 \/ w = 2 \/ w = 3 \/ w = 4 \/ w = 5 \/ w = 6) by lia.
  destruct Hc as [-> | [-> | [-> | [-> | [-> | [-> | ->]]]]]];
    vm_compute; intuition discriminate.
Qed.

(** Without a closed date among the next 21 days, the scan stops on the
    fifteenth Monday-to-Friday day after the deadline. *)
Lemma marking_scan_no_closed_days fuel closed_dates deadline :
  0 <= toordinal (date_part deadline) -> (1000 <= fuel)%nat ->
  toordinal (date_part deadline) + 21 <= _MAXORDINAL ->
  (forall i, 1 <= i <= 21 ->
     date_in (date_of_ordinal (toordinal (date_part deadline) + i)) closed_dates
     = false) ->
  marking_scan fuel DAYS_TO_MARK closed_dates deadline 0 1
  = Some (Ok (15, fifteenth_weekday_offset (datetime_weekday deadline) + 1)).
Proof.
  intros Hb Hf Hmax Hnc.
  assert (Hw : 0 <= datetime_weekday deadline < 7) by apply weekday_range.
  destruct (fifteenth_weekday_counts _ Hw) as (Hk & H14 & H15 & _).
  set (k := fifteenth_weekday_offset (datetime_weekday deadline)) in *.
  assert (W14 : working_days_upto closed_dates deadline (k - 1) = 14).
  { rewrite working_days_upto_no_closed; [exact H14|lia|lia|].
    intros i Hi. apply Hnc. lia. }
  assert (W15 : working_days_upto closed_dates deadline k = 15).
  { rewrite working_days_upto_no_closed; [exact H15|lia|lia|].
    intros i Hi. apply Hnc. lia. }
  rewrite <- W15.
  rewrite <- (working_days_upto_zero closed_dates deadline) at 1.
  change (working_days_upto closed_dates deadline 0)
    with (working_days_upto closed_dates deadline (1 - 1)).
  apply (marking_scan_finds DAYS_TO_MARK closed_dates deadline k
           ltac:(lia) ltac:(lia) ltac:(lia)
           ltac:(rewrite W14; reflexivity)
           ltac:(rewrite W15; unfold DAYS_TO_MARK; lia)
           (Z.to_nat (k - 1)) 1 fuel); lia.
Qed.

(** C4. With the marking window of 15 days and no closed date among the 21
    days after the deadline, the computation returns, and the marking deadline
    is the deadline moved forward to the fifteenth Monday-to-Friday day after
    it: [k] days later, where 14 such days lie among the first [k - 1] days
    and day [k] is the fifteenth. For a deadline on a Monday that is exactly 21
    days later. *)
Theorem marking_deadline_fifteen_weekdays (fuel : nat)
  (closed_days : list datetime) (today deadline : datetime) :
  valid_datetime deadline -> (1000 <= fuel)%nat ->
  toordinal (date_part deadline) + Z.max 21 (raw_elapsed today deadline)
  <= _MAXORDINAL ->
  (forall i, 1 <= i <= 21 ->
     date_in (date_of_ordinal (toordinal (date_part deadline) + i))
             (map date_part closed_days) = false) ->
  exists e md w k,
    days_since_deadline_from fuel DAYS_TO_MARK closed_days today deadline
    = Some (Ok (e, md, w)) /\
    datetime_add_days deadline k = Ok md /\
    k = fifteenth_weekday_offset (datetime_weekday deadline) /\
    weekdays_upto deadline (k - 1) = 14 /\
    weekdays_upto deadline k = 15 /\
    0 <= datetime_weekday md < 5 /\
    (datetime_weekday deadline = 0 ->
     k = 21 /\
     toordinal (date_part md) = toordinal (date_part deadline) + 21).
Proof.
  intros Hd Hf Hmax Hnc. pose proof (valid_datetime_base _ Hd) as Hb.
  assert (Hw : 0 <= datetime_weekday deadline < 7) by apply weekday_range.
  destruct (fifteenth_weekday_counts _ Hw) as (Hk & H14 & H15 & Hwd).
  pose proof (marking_scan_no_closed_days fuel (map date_part closed_days) deadline
                ltac:(lia) Hf ltac:(lia) Hnc) as Hs.
  set (k := fifteenth_weekday_offset (datetime_weekday deadline)) in *.
  destruct (datetime_add_days_ok deadline k ltac:(lia))
    as (md & Hmd & _ & _ & Ho & _ & _ & Hwmd).
  eexists _, md, _, k. split.
  { eapply days_since_deadline_from_ok.
    - apply first_pass_ok; lia.
    - exact Hs.
    - replace (k + 1 - 1) with k by lia. exact Hmd. }
  split; [exact Hmd|]. split; [reflexivity|].
  split.
  { unfold weekdays_upto.
    rewrite working_days_upto_no_closed; [exact H14|lia|lia|reflexivity]. }
  split.
  { unfold weekdays_upto.
    rewrite working_days_upto_no_closed; [exact H15|lia|lia|reflexivity]. }
  split.
  { rewrite Hwmd. unfold datetime_weekday, weekday in Hwd |- *.
    rewrite Z.add_mod_idemp_l in Hwd by lia.
    replace (toordinal (date_part deadline) + k + 6)
      with (toordinal (date_part deadline) + 6 + k) by lia.
    split; [apply Z.mod_pos_bound; lia|exact Hwd]. }
  intros H0. assert (k = 21) as Hk21 by (subst k; rewrite H0; reflexivity).
  split; [exact Hk21|]. rewrite Ho, Hk21. reflexivity.
Qed.

(** * The source's own closed days *)

Lemma closed_days_of_source_built :
  mapM (fun '(y, m, d) => datetime_new y m d) READABLE_CLOSED_DAYS
  = Ok closed_days_of_source.
Proof. vm_compute. reflexivity. Qed.

Lemma days_since_deadline_eq fuel today deadline :
  days_since_deadline fuel today deadline
  = days_since_deadline_from fuel DAYS_TO_MARK closed_days_of_source today deadline.
Proof.
  unfold days_since_deadline. rewrite closed_days_of_source_built. reflexivity.
Qed.

Lemma closed_days_of_source_valid : Forall valid_datetime closed_days_of_source.
Proof.
  unfold closed_days_of_source, READABLE_CLOSED_DAYS. cbn [map].
  repeat (constructor;
          [split; [reflexivity | unfold DAY_MICROS; cbn [micros]; lia]|]).
  constructor.
Qed.

(** The marking deadline [days_since_deadline] returns is a working day. *)
Corollary days_since_deadline_marking_deadline fuel today deadline e md w :
  days_since_deadline fuel today deadline = Some (Ok (e, md, w)) ->
  0 <= datetime_weekday md < 5 /\
  date_in (date_part md) (map date_part closed_days_of_source) = false.
Proof.
  rewrite days_since_deadline_eq. intros H.
  destruct (days_since_deadline_from_inv _ _ _ _ _ _ _ _ H)
    as (de & wd & j & _ & H2 & H3 & _).
  destruct (marking_scan_last_day _ _ _ _ _ _ _ _ H2 eq_refl)
    as (date & E & Hw & Hc).
  rewrite H3 in E. injection E as <-. split; [|exact Hc].
  split; [|exact Hw]. apply weekday_range.
Qed.

(** The elapsed working days [days_since_deadline] returns. *)
Corollary days_since_deadline_elapsed fuel today deadline e md w :
  valid_datetime today -> valid_datetime deadline ->
  days_since_deadline fuel today deadline = Some (Ok (e, md, w)) ->
  e = raw_elapsed today deadline
      - weekend_count deadline (raw_elapsed today deadline)
      - closed_count today deadline closed_days_of_source - 1.
Proof.
  intros Ht Hd. rewrite days_since_deadline_eq. intros H.
  destruct (days_since_deadline_from_inv _ _ _ _ _ _ _ _ H)
    as (de & wd & j & H1 & _ & _ & -> & _).
  apply remove_weekends_inv in H1. destruct H1 as (-> & _).
  rewrite remove_closed_count by (auto using closed_days_of_source_valid).
  unfold weekend_count. reflexivity.
Qed.

(** * The source returns normally *)

Lemma marking_scan_same_day fuel N closed_dates t t' :
  toordinal (date_part t) = toordinal (date_part t') ->
  forall wd j,
    marking_scan fuel N closed_dates t wd j
    = marking_scan fuel N closed_dates t' wd j.
Proof.
  intros E. induction fuel as [|fuel IH]; intros wd j; cbn [marking_scan];
    destruct (wd <? N); try reflexivity.
  destruct (Z_le_dec 1 (toordinal (date_part t) + j)) as [H1|H1];
    [destruct (Z_le_dec (toordinal (date_part t) + j) _MAXORDINAL) as [H2|H2]|].
  - destruct (datetime_add_days_ok t j ltac:(lia))
      as (d1 & -> & _ & _ & _ & _ & Hd1 & Hw1).
    destruct (datetime_add_days_ok t' j ltac:(lia))
      as (d2 & -> & _ & _ & _ & _ & Hd2 & Hw2).
    cbv zeta. rewrite Hw1, Hw2, Hd1, Hd2, E.
    destruct (j + 1 >? 1000); [reflexivity|]. apply IH.
  - rewrite !datetime_add_days_overflow by lia. reflexivity.
  - rewrite !datetime_add_days_overflow by lia. reflexivity.
Qed.

Lemma closed_days_of_source_ordinals c :
  In c (map date_part closed_days_of_source) ->
  FIRST_CLOSED_ORDINAL <= toordinal c <= LAST_CLOSED_ORDINAL.
Proof.
  intros Hc.
  assert (H : forallb (fun c => (FIRST_CLOSED_ORDINAL <=? toordinal c)
                                && (toordinal c <=? LAST_CLOSED_ORDINAL))
                (map date_part closed_days_of_source) = true)
    by (vm_compute; reflexivity).
  rewrite forallb_forall in H. specialize (H c Hc).
  apply andb_true_iff in H. rewrite !Z.leb_le in H. exact H.
Qed.

Lemma not_closed_outside t i :
  1 <= toordinal (date_part t) + i <= _MAXORDINAL ->
  toordinal (date_part t) + i < FIRST_CLOSED_ORDINAL
  \/ LAST_CLOSED_ORDINAL < toordinal (date_part t) + i ->
  date_in (date_of_ordinal (toordinal (date_part t) + i))
          (map date_part closed_days_of_source) = false.
Proof.
  intros Hr Hout.
  destruct (datetime_add_days_ok t i Hr) as (t' & _ & _ & _ & Ho & _ & Hd & _).
  rewrite <- Hd. unfold date_in.
  destruct (existsb _ _) eqn:E; [|reflexivity]. exfalso.
  apply existsb_exists in E. destruct E as (c & Hc & Heq).
  apply date_eqb_eq in Heq. apply closed_days_of_source_ordinals in Hc.
  rewrite <- Heq, Ho in Hc. lia.
Qed.

Lemma returned_value {A : Type} (x : option (result A)) :
  returned x = true -> exists r, x = Some (Ok r).
Proof. destruct x as [[r|e]|]; try discriminate. eauto. Qed.

Lemma scan_returns_near_closed_days b :
  FIRST_CLOSED_ORDINAL - 21 <= b <= LAST_CLOSED_ORDINAL ->
  exists r,
    marking_scan 1000 DAYS_TO_MARK (map date_part closed_days_of_source)
      (mkdatetime (date_of_ordinal b) 0) 0 1 = Some (Ok r).
Proof.
  intros Hb. apply returned_value.
  apply (forallb_range
           (fun b => returned
              (marking_scan 1000 DAYS_TO_MARK
                 (map date_part closed_days_of_source)
                 (mkdatetime (date_of_ordinal b) 0) 0 1))
           (FIRST_CLOSED_ORDINAL - 21) (LAST_CLOSED_ORDINAL + 1)).
  - vm_compute. reflexivity.
  - lia.
Qed.

(** X17. With the closed days and the marking window of the source,
    [days_since_deadline] returns a result (it neither raises nor exits) for
    every valid deadline from which 21 more days are representable and every
    clock reading that keeps [deadline + raw_elapsed] representable. *)
Lemma days_since_deadline_returns fuel today deadline :
  valid_datetime deadline -> (1000 <= fuel)%nat ->
  toordinal (date_part deadline) + Z.max 21 (raw_elapsed today deadline)
  <= _MAXORDINAL ->
  exists e md w,
    days_since_deadline fuel today deadline = Some (Ok (e, md, w)).
Proof.
  intros Hd Hf Hmax. rewrite days_since_deadline_eq.
  pose proof (valid_datetime_base _ Hd) as Hb.
  set (b := toordinal (date_part deadline)) in *.
  assert (Hscan : exists wd j,
             marking_scan fuel DAYS_TO_MARK (map date_part closed_days_of_source)
               deadline 0 1 = Some (Ok (wd, j))).
  { destruct (Z_lt_dec (b + 21) FIRST_CLOSED_ORDINAL) as [Hlo|Hlo];
      [|destruct (Z_lt_dec LAST_CLOSED_ORDINAL b) as [Hhi|Hhi]].
    - eexists _, _. apply marking_scan_no_closed_days; try (fold b; lia).
      intros i Hi. apply not_closed_outside; fold b; lia.
    - eexists _, _. apply marking_scan_no_closed_days; try (fold b; lia).
      intros i Hi. apply not_closed_outside; fold b; lia.
    - destruct (scan_returns_near_closed_days b ltac:(lia)) as (r0 & Hs).
      destruct (toordinal_fromordinal b) as (d & Ed & Hvd & Eo);
        [unfold LAST_CLOSED_ORDINAL, _MAXORDINAL in *; lia|].
      assert (Edo : date_of_ordinal b = d)
        by (unfold date_of_ordinal; now rewrite Ed).
      rewrite Edo in Hs.
      rewrite (marking_scan_same_day 1000 DAYS_TO_MARK _
                 (mkdatetime d 0) deadline Eo) in Hs.
      destruct (marking_scan_total DAYS_TO_MARK
                  (map date_part closed_days_of_source)
                  deadline (Z.to_nat 999) 0 1 ltac:(lia) ltac:(lia)) as (r & Hr).
      rewrite (Hr 1000%nat ltac:(lia)) in Hs. injection Hs as ->.
      destruct r0 as [wd j]. exists wd, j. apply Hr. lia. }
  destruct Hscan as (wd & j & Hscan).
  destruct (marking_scan_last_day _ _ _ _ _ _ _ _ Hscan eq_refl)
    as (md & Hmd & _).
  eexists _, md, _. eapply days_since_deadline_from_ok.
  - apply first_pass_ok; fold b; lia.
  - exact Hscan.
  - exact Hmd.
Qed.

(** A closed Saturday between the deadline and today is taken off twice, as
    a weekend day and as a closed day. *)
Example closed_saturday_counts_twice :
  days_since_deadline_from 1000 DAYS_TO_MARK
    [mkdatetime (mkdate 2023 3 11) 0]
    (mkdatetime (mkdate 2023 3 13) 0) (mkdatetime (mkdate 2023 3 10) 0)
  = Some (Ok (3 - 2 - 1 - 1, mkdatetime (mkdate 2023 3 31) 0, true)).
Proof. vm_compute. reflexivity. Qed.

(** * The properties on sample inputs *)

Lemma valid_sample (y m d us : Z) :
  _check_date_fields y m d = true -> (0 <=? us) && (us <? DAY_MICROS) = true ->
  valid_datetime (mkdatetime (mkdate y m d) us).
Proof.
  intros Hd Hus. apply andb_true_iff in Hus. destruct Hus as (H1 & H2).
  apply Z.leb_le in H1. apply Z.ltb_lt in H2. split; [exact Hd|].
  cbn [micros]. lia.
Qed.


Lemma marking_deadline_is_working_day_witness :
  0 <= datetime_weekday (mkdatetime (mkdate 2023 5 3) 43200000000) < 5 /\
  date_in (date_part (mkdatetime (mkdate 2023 5 3) 43200000000))
          (map date_part closed_days_of_source) = false.
Proof.
  apply (marking_deadline_is_working_day 1000 DAYS_TO_MARK closed_days_of_source
           easter_today easter_deadline 1
           (mkdatetime (mkdate 2023 5 3) 43200000000) true).
  - reflexivity.
  - vm_compute. reflexivity.
Defined.

Lemma no_closed_day_after_monday_deadline i :
  1 <= i <= 21 ->
  date_in (date_of_ordinal (toordinal (date_part monday_deadline) + i))
          (map date_part closed_days_of_source) = false.
Proof.
  intros Hi. apply negb_true_iff.
  apply (forallb_range
           (fun i => negb (date_in
              (date_of_ordinal (toordinal (date_part monday_deadline) + i))
              (map date_part closed_days_of_source))) 1 22).
  - vm_compute. reflexivity.
  - lia.
Qed.

Lemma marking_deadline_fifteen_weekdays_witness :
  exists e md w k,
    days_since_deadline_from 1000 DAYS_TO_MARK closed_days_of_source
      friday_today monday_deadline = Some (Ok (e, md, w)) /\
    datetime_add_days monday_deadline k = Ok md /\
    k = fifteenth_weekday_offset (datetime_weekday monday_deadline) /\
    weekdays_upto monday_deadline (k - 1) = 14 /\
    weekdays_upto monday_deadline k = 15 /\
    0 <= datetime_weekday md < 5 /\
    (datetime_weekday monday_deadline = 0 ->
     k = 21 /\
     toordinal (date_part md) = toordinal (date_part monday_deadline) + 21).
Proof.
  apply (marking_deadline_fifteen_weekdays 1000 closed_days_of_source
           friday_today monday_deadline).
  - apply valid_sample; reflexivity.
  - lia.
  - vm_compute. discriminate.
  - apply no_closed_day_after_monday_deadline.
Defined.



Lemma marking_scan_terminates_witness :
  (exists r, forall fuel, (1000 <= fuel)%nat ->
     marking_scan fuel 2000 (map date_part []) monday_deadline 0 1 = Some r) /\
  (exists r, forall fuel, (1000 <= fuel)%nat ->
     days_since_deadline_from fuel 2000 [] friday_today monday_deadline = Some r) /\
  (forall fuel, (1000 <= fuel)%nat ->
     days_since_deadline_from fuel 2000 [] friday_today monday_deadline
     = Some (Raise SystemExit)).
Proof.
  destruct (marking_scan_terminates 2000 [] friday_today monday_deadline)
    as (H1 & H2 & H3).
  split; [exact H1|]. split; [exact H2|].
  apply (H3 (valid_sample 2023 3 6 61200000000 eq_refl eq_refl)) with (k := 1000).
  - vm_compute. discriminate.
  - lia.
  - vm_compute. reflexivity.
Defined.

(** With each of the 1000 days after the deadline closed, the computation
    ends with [sys.exit]. *)
Example all_days_closed_exits :
  days_since_deadline_from 1000 DAYS_TO_MARK
    (all_closed_after monday_deadline 1000) friday_today monday_deadline
  = Some (Raise SystemExit).
Proof. vm_compute. reflexivity. Qed.

(** A deadline on the last representable day: the scan cannot form the next
    day, and [days_since_deadline] ends with [OverflowError]. *)
Example last_day_deadline_overflows :
  days_since_deadline 1000 friday_today (mkdatetime (mkdate 9999 12 31) 0)
  = Some (Raise OverflowError).
Proof. vm_compute. reflexivity. Qed.

(** A deadline on a Friday and today seven days later, with no closed day:
    the five weekdays after the deadline up to today are counted, less one. *)
Example friday_to_friday :
  days_since_deadline 1000 (mkdatetime (mkdate 2023 3 10) 0)
    (mkdatetime (mkdate 2023 3 3) 0)
  = Some (Ok (4, mkdatetime (mkdate 2023 3 24) 0, true)).
Proof. vm_compute. reflexivity. Qed.

(** * The August bank holiday *)

Lemma AugustBankHoliday_eq y :
  1 <= y <= 9999 -> AugustBankHoliday y = Ok (AugustBankHoliday_date y).
Proof.
  intros Hy. unfold AugustBankHoliday_date.
  assert (E1 : (1 <=? y) = true) by (apply Z.leb_le; lia).
  assert (E2 : (y <=? 9999) = true) by (apply Z.leb_le; lia).
  assert (Hnew : forall m d, date_new y m d =
            if (1 <=? m) && (m <=? 12) && (1 <=? d) && (d <=? _days_in_month y m)
            then Ok (mkdate y m d) else Raise ValueError).
  { intros m d. unfold date_new, _check_date_fields, MINYEAR, MAXYEAR.
    rewrite E1, E2. reflexivity. }
  unfold AugustBankHoliday, PyCalendar.monthdatescalendar, PyCalendar.itermonthdates,
    PyCalendar.itermonthdays3, PyCalendar.monthrange, PyCalendar.weekday,
    MINYEAR, MAXYEAR.
  rewrite E1, E2. cbn [andb negb Z.leb Z.compare Pos.compare Pos.compare_cont bind].
  rewrite Hnew. cbn [andb negb Z.leb Z.compare Pos.compare Pos.compare_cont bind].
  change (_days_in_month y 8) with 31.
  cbn [Z.leb Z.compare Pos.compare Pos.compare_cont bind].
  change (PyCalendar.mdays 8 + b2z ((8 =? 2) && PyCalendar.isleap y)) with 31.
  change (PyCalendar._prevmonth y 8) with (y, 7).
  change (PyCalendar._nextmonth y 8) with (y, 9).
  cbv beta iota.
  change (PyCalendar._monthlen y 7 + 1) with 32.
  pose proof (weekday_range (mkdate y 8 1)) as Hw.
  set (w := weekday (mkdate y 8 1)) in *. clearbody w.
  assert (Hc : w = 0 \/ w = 1 \/ w = 2 \/ w = 3 \/ w = 4 \/ w = 5 \/ w = 6) by lia.
  destruct Hc as [-> | [-> | [-> | [-> | [-> | [-> | ->]]]]]].
  all: lazy - [date_new AugustBankHoliday_day]; rewrite !Hnew.
  all: lazy - [AugustBankHoliday_day].
  all: reflexivity.
Qed.

(** Outside the years 1..9999 no date of August can be built. *)
Lemma monthdatescalendar_bad_year fwd y :
  0 <= fwd < 7 -> ~ (1 <= y <= 9999) ->
  PyCalendar.monthdatescalendar fwd y 8 = Raise ValueError.
Proof.
  intros Hf Hy.
  assert (E : (1 <=? y) && (y <=? 9999) = false).
  { apply andb_false_iff. rewrite Z.leb_gt, Z.leb_gt. lia. }
  assert (Hnew : forall m d, date_new y m d = Raise ValueError).
  { intros m d. unfold date_new, _check_date_fields, MINYEAR, MAXYEAR.
    rewrite E. reflexivity. }
  unfold PyCalendar.monthdatescalendar, PyCalendar.itermonthdates,
    PyCalendar.itermonthdays3, PyCalendar.monthrange, PyCalendar.weekday,
    MINYEAR, MAXYEAR.
  rewrite E. cbn [andb negb Z.leb Z.compare Pos.compare Pos.compare_cont bind].
  assert (Hv : valid_date (mkdate (2000 + y mod 400) 8 1)).
  { pose proof (Z.mod_pos_bound y 400 ltac:(lia)).
    apply valid_date_intro; [lia|lia|].
    change (_days_in_month (2000 + y mod 400) 8) with 31. lia. }
  rewrite (date_new_valid _ _ _ Hv). cbn [bind].
  change (PyCalendar.mdays 8 + b2z ((8 =? 2) && PyCalendar.isleap y)) with 31.
  change (PyCalendar._prevmonth y 8) with (y, 7).
  change (PyCalendar._nextmonth y 8) with (y, 9).
  cbv beta iota.
  change (PyCalendar._monthlen y 7 + 1) with 32.
  pose proof (weekday_range (mkdate (2000 + y mod 400) 8 1)) as Hw.
  set (w := weekday (mkdate (2000 + y mod 400) 8 1)) in *. clearbody w.
  assert (Hc : w = 0 \/ w = 1 \/ w = 2 \/ w = 3 \/ w = 4 \/ w = 5 \/ w = 6) by lia.
  assert (Hf' : fwd = 0 \/ fwd = 1 \/ fwd = 2 \/ fwd = 3 \/ fwd = 4 \/ fwd = 5 \/ fwd = 6)
    by lia.
  destruct Hc as [-> | [-> | [-> | [-> | [-> | [-> | ->]]]]]];
    destruct Hf' as [-> | [-> | [-> | [-> | [-> | [-> | ->]]]]]].
  all: lazy - [date_new]; rewrite Hnew; reflexivity.
Qed.

Lemma WeekOne_bad_year y :
  ~ (1 <= y <= 9999) -> WeekOne y = Raise ValueError.
Proof.
  intros Hb. unfold WeekOne.
  rewrite monthdatescalendar_bad_year by (auto; lia). reflexivity.
Qed.


Lemma WeekOne_ok_year y w : WeekOne y = Ok w -> 1 <= y <= 9999.
Proof.
  intros Hw.
  destruct (Z_le_dec 1 y) as [H1|H1]; [destruct (Z_le_dec y 9999) as [H2|H2]|];
    [lia| |]; rewrite WeekOne_bad_year in Hw by lia; discriminate.
Qed.

(** * Week one from year to year *)

Lemma toordinal_WeekOne_date y :
  toordinal (WeekOne_date y)
  = _days_before_year y + 212 + b2z (_is_leap y) + day (WeekOne_date y).
Proof.
  unfold toordinal, _ymd2ord, WeekOne_date. cbn [year month day].
  change (_days_before_month y 8) with (212 + b2z (_is_leap y)). lia.
Qed.

Lemma WeekOne_date_in_year y :
  1 <= y <= 9999 ->
  _days_before_year y < toordinal (WeekOne_date y) <= _days_before_year (y + 1).
Proof.
  intros Hy. destruct (WeekOne_date_facts y Hy) as (Hv & Hyr & _).
  pose proof (toordinal_bounds _ Hv) as B. rewrite Hyr in B. exact B.
Qed.

Lemma WeekOne_date_gap y :
  1 <= y <= 9998 ->
  toordinal (WeekOne_date (y + 1)) - toordinal (WeekOne_date y) = 364 \/
  toordinal (WeekOne_date (y + 1)) - toordinal (WeekOne_date y) = 371.
Proof.
  intros Hy.
  destruct (WeekOne_date_facts y ltac:(lia)) as (_ & _ & _ & Hd & Hw).
  destruct (WeekOne_date_facts (y + 1) ltac:(lia)) as (_ & _ & _ & Hd' & Hw').
  unfold weekday in Hw, Hw'.
  rewrite (toordinal_WeekOne_date y), (toordinal_WeekOne_date (y + 1)) in *.
  rewrite (days_before_year_succ y) in * by lia.
  set (k := day (WeekOne_date y)) in *. set (k' := day (WeekOne_date (y + 1))) in *.
  set (n := _days_before_year y) in *.
  destruct (_is_leap y), (_is_leap (y + 1)); cbn [b2z] in *;
    clearbody k k' n; Z.div_mod_to_equations; lia.
Qed.

Lemma monday_floor m o :
  (m + 6) mod 7 = 0 -> (o + 6) mod 7 = 0 -> m < o -> m + 7 <= o.
Proof. intros. Z.div_mod_to_equations. lia. Qed.

Lemma year_between d y :
  valid_date d -> 1 <= y ->
  _days_before_year y < toordinal d <= _days_before_year (y + 1) -> year d = y.
Proof.
  intros Hv Hy Hb. destruct (valid_date_bounds d Hv) as (Hyd & _).
  pose proof (toordinal_bounds d Hv) as B.
  destruct (Z.lt_trichotomy (year d) y) as [Hlt | [Heq | Hgt]]; [|exact Heq|].
  - pose proof (days_before_year_mono (year d + 1) y ltac:(lia) ltac:(lia)). lia.
  - pose proof (days_before_year_mono (y + 1) (year d) ltac:(lia) ltac:(lia)). lia.
Qed.

(** The academic year of a date, by the interval of ordinals it spans. *)
Lemma AcademicYear_ordinal d a :
  valid_date d -> 1 <= a <= 9999 ->
  (AcademicYear d = Ok a <->
   toordinal (WeekOne_date a) <= toordinal d /\
   (a < 9999 -> toordinal d < toordinal (WeekOne_date (a + 1)))).
Proof.
  intros Hv Ha. destruct (valid_date_bounds d Hv) as (Hyd & _).
  pose proof (toordinal_bounds d Hv) as B.
  destruct (WeekOne_date_facts (year d) Hyd) as (HvW & _).
  rewrite AcademicYear_eq by auto. rewrite date_geb_ordinal by auto.
  pose proof (WeekOne_date_in_year (year d) Hyd) as BW.
  split.
  - destruct (Z.leb_spec (toordinal (WeekOne_date (year d))) (toordinal d)) as [Hle|Hlt];
      intros [= <-].
    + split; [exact Hle|]. intros Hlt.
      pose proof (WeekOne_date_in_year (year d + 1) ltac:(lia)). lia.
    + replace (year d - 1 + 1) with (year d) by lia. split; [|auto].
      pose proof (WeekOne_date_in_year (year d - 1) ltac:(lia)) as B'.
      replace (year d - 1 + 1) with (year d) in B' by lia. lia.
  - intros (Hlo & Hhi).
    pose proof (WeekOne_date_in_year a Ha) as Ba.
    assert (Hcase : year d = a \/ (year d = a + 1 /\ a < 9999)).
    { destruct (Z_lt_dec (year d) a) as [H1|H1].
      - pose proof (days_before_year_mono (year d + 1) a ltac:(lia) ltac:(lia)). lia.
      - destruct (Z.eq_dec (year d) a) as [|H2]; [auto|]. right.
        assert (a < 9999) by lia. split; [|lia]. specialize (Hhi ltac:(lia)).
        pose proof (WeekOne_date_in_year (a + 1) ltac:(lia)) as Ba'.
        destruct (Z.eq_dec (year d) (a + 1)) as [|H3]; [auto|].
        pose proof (days_before_year_mono (a + 1 + 1) (year d) ltac:(lia) ltac:(lia)).
        lia. }
    destruct Hcase as [E | (E & Ha')].
    + rewrite E. replace (toordinal (WeekOne_date a) <=? toordinal d) with true
        by (symmetry; apply Z.leb_le; lia). reflexivity.
    + rewrite E. specialize (Hhi Ha').
      replace (toordinal (WeekOne_date (a + 1)) <=? toordinal d) with false
        by (symmetry; apply Z.leb_gt; lia).
      f_equal. lia.
Qed.

Lemma AugustBankHoliday_day_cases w :
  0 <= w < 7 ->
  25 <= AugustBankHoliday_day w <= 31 /\
  (w + (AugustBankHoliday_day w - 1)) mod 7 = 0 /\
  (AugustBankHoliday_day w = WeekOne_day w \/
   AugustBankHoliday_day w = WeekOne_day w + 7).
Proof.
  intros Hw.
  assert (Hc : w = 0 \/ w = 1 \/ w = 2 \/ w = 3 \/ w = 4 \/ w = 5 \/ w = 6) by lia.
  destruct Hc as [-> | [-> | [-> | [-> | [-> | [-> | ->]]]]]];
    vm_compute; intuition discriminate.
Qed.

Lemma AugustBankHoliday_date_facts y :
  1 <= y <= 9999 ->
  valid_date (AugustBankHoliday_date y) /\
  25 <= day (AugustBankHoliday_date y) <= 31 /\
  weekday (AugustBankHoliday_date y) = 0 /\
  (toordinal (AugustBankHoliday_date y) = toordinal (WeekOne_date y) \/
   toordinal (AugustBankHoliday_date y) = toordinal (WeekOne_date y) + 7).
Proof.
  intros Hy. unfold AugustBankHoliday_date, WeekOne_date.
  destruct (AugustBankHoliday_day_cases _ (weekday_range (mkdate y 8 1)))
    as (Hk & Hm & Hrel).
  cbn [day]. split; [apply valid_date_august; lia|]. split; [exact Hk|].
  split; [rewrite weekday_august; exact Hm|].
  rewrite (toordinal_august y (AugustBankHoliday_day _)),
    (toordinal_august y (WeekOne_day _)). lia.
Qed.

Lemma date_add_days_inv d n d' :
  valid_date d -> date_add_days d n = Ok d' ->
  1 <= toordinal d + n <= _MAXORDINAL /\ valid_date d' /\
  toordinal d' = toordinal d + n.
Proof.
  intros Hv H.
  assert (Hn : 1 <= toordinal d + n <= _MAXORDINAL).
  { destruct (Z_le_dec 1 (toordinal d + n)) as [H1|H1];
      [destruct (Z_le_dec (toordinal d + n) _MAXORDINAL) as [H2|H2]|]; [lia| |].
    all: rewrite date_add_days_overflow in H by lia; discriminate. }
  destruct (date_add_days_ok d n Hv Hn) as (d'' & E & Hv' & Ho).
  rewrite E in H. injection H as <-. auto.
Qed.

Lemma WeekOne_date_first_le y :
  1 <= y <= 9999 -> toordinal FIRST_WEEK_ONE <= toordinal (WeekOne_date y).
Proof.
  intros Hy. destruct (Z.eq_dec y 1) as [->|Hn].
  - rewrite WeekOne_first. lia.
  - destruct (WeekOne_date_facts y Hy) as (Hv & Hyr & _).
    apply Z.lt_le_incl, earlier_year_lt; auto; [reflexivity|].
    rewrite Hyr. change (year FIRST_WEEK_ONE) with 1. lia.
Qed.

(** [UniversityWeek] returns exactly from the first week one on, and then the
    date has an academic year with a week one. *)
Lemma UniversityWeek_defined d :
  valid_date d ->
  (date_geb d FIRST_WEEK_ONE = true /\
   exists a, AcademicYear d = Ok a /\ 1 <= a <= 9999 /\
             toordinal (WeekOne_date a) <= toordinal d /\
             (a < 9999 -> toordinal d < toordinal (WeekOne_date (a + 1))) /\
             UniversityWeek d
             = Ok ((toordinal d - toordinal (WeekOne_date a)) / 7 + 1)) \/
  (date_geb d FIRST_WEEK_ONE = false /\ UniversityWeek d = Raise ValueError).
Proof.
  intros Hv. destruct (valid_date_bounds d Hv) as (Hy & _).
  assert (HvF : valid_date FIRST_WEEK_ONE) by reflexivity.
  destruct (AcademicYear d) as [a|e] eqn:Ea;
    [|rewrite AcademicYear_eq in Ea by auto; discriminate].
  destruct (Z_le_dec 1 a) as [H1|H0].
  - left. destruct (anchor_facts d a Hv Ea H1) as (Ha & Hle & HU).
    split.
    + rewrite date_geb_ordinal by auto. apply Z.leb_le.
      pose proof (WeekOne_date_first_le a Ha). lia.
    + exists a. repeat split; try lia; auto.
      apply (AcademicYear_ordinal d a Hv Ha) in Ea. apply Ea.
  - right. rewrite AcademicYear_eq in Ea by auto.
    destruct (date_geb d (WeekOne_date (year d))) eqn:E; injection Ea as <-; [lia|].
    assert (E1 : year d = 1) by lia.
    rewrite E1, WeekOne_first in E. split; [exact E|].
    rewrite UniversityWeek_eq by auto. rewrite E1, WeekOne_first, E. reflexivity.
Qed.

Lemma UniversityWeek_bounds d uweek :
  valid_date d -> UniversityWeek d = Ok uweek -> 1 <= uweek <= 53.
Proof.
  intros Hv HU.
  destruct (UniversityWeek_defined d Hv)
    as [(Hge & a & Ha & Hr & Hlo & Hhi & E) | (Hlt & E)];
    rewrite E in HU; [|discriminate]. injection HU as <-.
  set (oW := toordinal (WeekOne_date a)) in *. set (od := toordinal d) in *.
  assert (Hspan : od - oW <= 370).
  { destruct (Z.eq_dec a 9999) as [->|Hn].
    - pose proof (toordinal_range d Hv) as R. fold od in R.
      pose proof (WeekOne_date_in_year 9999 ltac:(lia)) as B. fold oW in B.
      change (_days_before_year 9999) with 3651694 in B.
      unfold _MAXORDINAL in R. lia.
    - specialize (Hhi ltac:(lia)).
      pose proof (WeekOne_date_gap a ltac:(lia)) as G. fold oW in G. lia. }
  clearbody oW od. Z.div_mod_to_equations. lia.
Qed.

(** * The August bank holiday and week one *)

(** X1. For every year the [datetime] module accepts, [AugustBankHoliday]
    returns the last Monday of August: a Monday of that August with no later
    Monday in it. *)
Theorem AugustBankHoliday_last_monday (Y : Z) :
  MINYEAR <= Y <= MAXYEAR ->
  exists monday,
    AugustBankHoliday Y = Ok monday /\ valid_date monday /\
    year monday = Y /\ month monday = 8 /\ weekday monday = 0 /\
    (forall k, 1 <= k <= 31 -> weekday (mkdate Y 8 k) = 0 -> k <= day monday).
Proof.
  unfold MINYEAR, MAXYEAR. intros HY.
  destruct (AugustBankHoliday_date_facts Y HY) as (Hv & Hd & Hw & _).
  exists (AugustBankHoliday_date Y). rewrite AugustBankHoliday_eq by auto.
  repeat split; auto.
  intros k Hk Hk0. unfold AugustBankHoliday_date in *. cbn [day] in *.
  rewrite weekday_august in Hw, Hk0.
  pose proof (weekday_range (mkdate Y 8 1)).
  Z.div_mod_to_equations. lia.
Qed.

Lemma AugustBankHoliday_last_monday_witness :
  exists monday,
    AugustBankHoliday 2023 = Ok monday /\ valid_date monday /\
    year monday = 2023 /\ month monday = 8 /\ weekday monday = 0 /\
    (forall k, 1 <= k <= 31 -> weekday (mkdate 2023 8 k) = 0 -> k <= day monday).
Proof.
  apply (AugustBankHoliday_last_monday 2023). unfold MINYEAR, MAXYEAR. lia.
Defined.

(** X2. The August bank holiday is the Monday of week one or the Monday after
    it: it lies in the academic year that begins that August, in university
    week 1 or 2. *)
Theorem AugustBankHoliday_university_week (Y : Z) :
  MINYEAR <= Y <= MAXYEAR ->
  exists w h,
    WeekOne Y = Ok w /\ AugustBankHoliday Y = Ok h /\
    AcademicYear h = Ok Y /\
    ((date_sub_days h w = 0 /\ UniversityWeek h = Ok 1) \/
     (date_sub_days h w = 7 /\ UniversityWeek h = Ok 2)).
Proof.
  unfold MINYEAR, MAXYEAR. intros HY.
  destruct (AugustBankHoliday_date_facts Y HY) as (Hv & Hd & Hw & Hrel).
  destruct (WeekOne_date_facts Y HY) as (HvW & _).
  exists (WeekOne_date Y), (AugustBankHoliday_date Y).
  rewrite WeekOne_eq, AugustBankHoliday_eq by auto.
  assert (HA : AcademicYear (AugustBankHoliday_date Y) = Ok Y).
  { rewrite AcademicYear_eq by auto. change (year (AugustBankHoliday_date Y)) with Y.
    rewrite date_geb_ordinal by auto.
    replace (toordinal (WeekOne_date Y) <=? toordinal (AugustBankHoliday_date Y))
      with true by (symmetry; apply Z.leb_le; lia).
    reflexivity. }
  destruct (anchor_facts _ _ Hv HA ltac:(lia)) as (_ & _ & HU).
  repeat split; auto. unfold date_sub_days. rewrite HU.
  destruct Hrel as [E|E]; rewrite E; [left|right]; split; try lia; f_equal.
  - rewrite Z.sub_diag. reflexivity.
  - replace (toordinal (WeekOne_date Y) + 7 - toordinal (WeekOne_date Y)) with 7 by lia.
    reflexivity.
Qed.

Lemma AugustBankHoliday_university_week_witness :
  exists w h,
    WeekOne 2023 = Ok w /\ AugustBankHoliday 2023 = Ok h /\
    AcademicYear h = Ok 2023 /\
    ((date_sub_days h w = 0 /\ UniversityWeek h = Ok 1) \/
     (date_sub_days h w = 7 /\ UniversityWeek h = Ok 2)).
Proof.
  apply (AugustBankHoliday_university_week 2023). unfold MINYEAR, MAXYEAR. lia.
Defined.


(** X4. From one year to the next, week one moves on by exactly 52 or 53
    weeks. *)
Theorem WeekOne_next_year_gap (Y : Z) :
  MINYEAR <= Y < MAXYEAR ->
  exists w w',
    WeekOne Y = Ok w /\ WeekOne (Y + 1) = Ok w' /\
    (date_sub_days w' w = 52 * 7 \/ date_sub_days w' w = 53 * 7).
Proof.
  unfold MINYEAR, MAXYEAR. intros HY.
  exists (WeekOne_date Y), (WeekOne_date (Y + 1)).
  rewrite !WeekOne_eq by lia. split; [reflexivity|]. split; [reflexivity|].
  unfold date_sub_days. apply WeekOne_date_gap. lia.
Qed.

Lemma WeekOne_next_year_gap_witness :
  exists w w',
    WeekOne 2017 = Ok w /\ WeekOne (2017 + 1) = Ok w' /\
    (date_sub_days w' w = 52 * 7 \/ date_sub_days w' w = 53 * 7).
Proof.
  apply (WeekOne_next_year_gap 2017). unfold MINYEAR, MAXYEAR. lia.
Defined.

(** * Academic years and weeks as intervals *)

(** X5. A date is in academic year [a] exactly when it is on or after
    [WeekOne(a)] and before [WeekOne(a + 1)]. *)
Theorem AcademicYear_between_week_ones (d : date) (a : Z) :
  valid_date d -> MINYEAR <= a < MAXYEAR ->
  (AcademicYear d = Ok a <->
   exists w w', WeekOne a = Ok w /\ WeekOne (a + 1) = Ok w' /\
                date_geb d w = true /\ date_ltb d w' = true).
Proof.
  unfold MINYEAR, MAXYEAR. intros Hv Ha.
  destruct (WeekOne_date_facts a ltac:(lia)) as (HvW & _).
  destruct (WeekOne_date_facts (a + 1) ltac:(lia)) as (HvW' & _).
  rewrite (AcademicYear_ordinal d a Hv) by lia. split.
  - intros (Hlo & Hhi). exists (WeekOne_date a), (WeekOne_date (a + 1)).
    rewrite !WeekOne_eq by lia. rewrite date_geb_ordinal, date_ltb_ordinal by auto.
    repeat split; [apply Z.leb_le; lia | apply Z.ltb_lt; apply Hhi; lia].
  - intros (w & w' & E & E' & Hge & Hlt). rewrite WeekOne_eq in E, E' by lia.
    injection E as <-. injection E' as <-.
    rewrite date_geb_ordinal in Hge by auto. rewrite date_ltb_ordinal in Hlt by auto.
    apply Z.leb_le in Hge. apply Z.ltb_lt in Hlt. split; [lia|]. intros _. lia.
Qed.

Lemma AcademicYear_between_week_ones_witness :
  AcademicYear (mkdate 2015 1 12) = Ok 2014 <->
  exists w w', WeekOne 2014 = Ok w /\ WeekOne (2014 + 1) = Ok w' /\
               date_geb (mkdate 2015 1 12) w = true /\
               date_ltb (mkdate 2015 1 12) w' = true.
Proof.
  apply (AcademicYear_between_week_ones (mkdate 2015 1 12) 2014).
  - reflexivity.
  - unfold MINYEAR, MAXYEAR. lia.
Defined.

(** X6. [UniversityWeek] returns a week number from 1 to 53 for every date on
    or after the first week one, and raises [ValueError] for the dates before
    it. *)
Theorem UniversityWeek_range (d : date) :
  valid_date d ->
  match UniversityWeek d with
  | Ok uweek => date_geb d FIRST_WEEK_ONE = true /\ 1 <= uweek <= 53
  | Raise e => date_geb d FIRST_WEEK_ONE = false /\ e = ValueError
  end.
Proof.
  intros Hv.
  destruct (UniversityWeek d) as [uweek|e] eqn:HU.
  - split; [|exact (UniversityWeek_bounds d uweek Hv HU)].
    destruct (UniversityWeek_defined d Hv) as [(Hge & _) | (_ & E)];
      [exact Hge|congruence].
  - destruct (UniversityWeek_defined d Hv)
      as [(_ & a & _ & _ & _ & _ & E) | (Hlt & E)]; [congruence|].
    split; [exact Hlt|congruence].
Qed.

Lemma UniversityWeek_range_witness :
  match UniversityWeek (mkdate 2018 8 22) with
  | Ok uweek => date_geb (mkdate 2018 8 22) FIRST_WEEK_ONE = true /\ 1 <= uweek <= 53
  | Raise e => date_geb (mkdate 2018 8 22) FIRST_WEEK_ONE = false /\ e = ValueError
  end.
Proof. exact (UniversityWeek_range (mkdate 2018 8 22) eq_refl). Defined.

(** X7. Every university week runs from Monday to Sunday: a date moved
    within its own Monday-to-Sunday week keeps its academic year and its
    university week. *)
Theorem UniversityWeek_same_calendar_week (d d' : date) (a k : Z) :
  valid_date d -> AcademicYear d = Ok a -> 1 <= a ->
  0 <= weekday d + k <= 6 -> date_add_days d k = Ok d' ->
  AcademicYear d' = Ok a /\ UniversityWeek d' = UniversityWeek d.
Proof.
  intros Hv Ha H1 Hk Hadd.
  destruct (date_add_days_inv d k d' Hv Hadd) as (_ & Hv' & Ho').
  destruct (anchor_facts d a Hv Ha H1) as (Hr & Hle & HU).
  pose proof (proj1 (AcademicYear_ordinal d a Hv Hr) Ha) as (_ & Hhi).
  destruct (WeekOne_date_facts a Hr) as (_ & _ & _ & _ & HwW).
  unfold weekday in Hk, HwW.
  set (oW := toordinal (WeekOne_date a)) in *. set (od := toordinal d) in *.
  assert (Hlo' : oW <= toordinal d').
  { rewrite Ho'. fold od. clearbody oW od. Z.div_mod_to_equations. lia. }
  assert (Hhi' : a < 9999 -> toordinal d' < toordinal (WeekOne_date (a + 1))).
  { intros Hlt. specialize (Hhi Hlt).
    destruct (WeekOne_date_facts (a + 1) ltac:(lia)) as (_ & _ & _ & _ & HwW').
    unfold weekday in HwW'. rewrite Ho'. fold od.
    set (oW' := toordinal (WeekOne_date (a + 1))) in *.
    clearbody oW oW' od. Z.div_mod_to_equations. lia. }
  assert (Ha' : AcademicYear d' = Ok a).
  { apply (AcademicYear_ordinal d' a Hv' Hr). split; [exact Hlo'|exact Hhi']. }
  split; [exact Ha'|].
  destruct (anchor_facts d' a Hv' Ha' H1) as (_ & _ & HU').
  rewrite HU, HU'. fold oW od. rewrite Ho'. fold od. f_equal. f_equal.
  clearbody oW od. Z.div_mod_to_equations. lia.
Qed.

Lemma UniversityWeek_same_calendar_week_witness :
  AcademicYear (mkdate 2015 1 1) = Ok 2014 /\
  UniversityWeek (mkdate 2015 1 1) = UniversityWeek (mkdate 2014 12 29).
Proof.
  apply (UniversityWeek_same_calendar_week (mkdate 2014 12 29) (mkdate 2015 1 1)
           2014 3); try reflexivity.
  - lia.
  - vm_compute. split; discriminate.
Defined.

(** * From week numbers back to dates *)



Lemma DateFromUniversityWeek_value a u dow d :
  1 <= a <= 9999 -> DateFromUniversityWeek a u dow = Ok d ->
  valid_date d /\
  toordinal d = toordinal (WeekOne_date a) + 7 * (u - 1) + dow.
Proof.
  intros Ha H. unfold DateFromUniversityWeek in H.
  rewrite WeekOne_eq in H by auto. cbn [bind] in H.
  destruct (WeekOne_date_facts a Ha) as (HvW & _).
  destruct (date_add_days (WeekOne_date a) (7 * (u - 1))) as [d1|e] eqn:E1;
    [|discriminate].
  cbn [bind] in H.
  destruct (date_add_days_inv _ _ _ HvW E1) as (_ & Hv1 & Ho1).
  destruct (date_add_days_inv _ _ _ Hv1 H) as (_ & Hv2 & Ho2).
  split; [exact Hv2|]. lia.
Qed.

Lemma DateFromUniversityWeek_returns a u dow :
  1 <= a <= 9998 -> 1 <= u <= 53 -> 0 <= dow <= 6 ->
  exists d, DateFromUniversityWeek a u dow = Ok d.
Proof.
  intros Ha Hu Hd.
  destruct (WeekOne_date_facts a ltac:(lia)) as (HvW & _ & _ & Hk & _).
  pose proof (toordinal_range _ HvW) as R.
  pose proof (toordinal_WeekOne_date a) as E.
  pose proof (days_before_year_succ a ltac:(lia)) as S.
  pose proof (days_before_year_mono (a + 1) 9999 ltac:(lia) ltac:(lia)) as M.
  change (_days_before_year 9999) with 3651694 in M. unfold _MAXORDINAL in *.
  assert (Hb : toordinal (WeekOne_date a) + 370 <= 3652059).
  { destruct (_is_leap a); cbn [b2z] in *; lia. }
  unfold DateFromUniversityWeek. rewrite WeekOne_eq by lia. cbn [bind].
  destruct (date_add_days_ok _ (7 * (u - 1)) HvW) as (d1 & -> & Hv1 & Ho1);
    [unfold _MAXORDINAL; lia|].
  cbn [bind].
  destruct (date_add_days_ok d1 dow Hv1) as (d2 & -> & _);
    [unfold _MAXORDINAL; lia|].
  eauto.
Qed.

(** X9. [DateFromUniversityWeek] is a right inverse on weeks 1..52: the date
    it returns for academic year [ayear], week [uweek] and day [dow] (Monday
    0 to Sunday 6) has that academic year, that university week and that
    weekday; and it does return for every academic year before 9999. *)
Theorem DateFromUniversityWeek_right_inverse (ayear uweek dow : Z) :
  MINYEAR <= ayear <= MAXYEAR -> 1 <= uweek <= 52 -> 0 <= dow <= 6 ->
  (ayear < MAXYEAR -> exists d, DateFromUniversityWeek ayear uweek dow = Ok d) /\
  (forall d, DateFromUniversityWeek ayear uweek dow = Ok d ->
     AcademicYear d = Ok ayear /\ UniversityWeek d = Ok uweek /\
     weekday d = dow).
Proof.
  unfold MINYEAR, MAXYEAR. intros Ha Hu Hd. split.
  - intros Hlt. apply DateFromUniversityWeek_returns; lia.
  - intros d H.
    destruct (DateFromUniversityWeek_value _ _ _ _ Ha H) as (Hv & Ho).
    destruct (WeekOne_date_facts ayear Ha) as (_ & _ & _ & _ & HwW).
    unfold weekday in HwW.
    assert (HA : AcademicYear d = Ok ayear).
    { apply (AcademicYear_ordinal d ayear Hv Ha). split; [lia|].
      intros Hlt. pose proof (WeekOne_date_gap ayear ltac:(lia)). lia. }
    split; [exact HA|].
    destruct (anchor_facts d ayear Hv HA ltac:(lia)) as (_ & _ & ->).
    unfold weekday. rewrite Ho.
    set (oW := toordinal (WeekOne_date ayear)) in *. clearbody oW.
    split; [f_equal|]; Z.div_mod_to_equations; lia.
Qed.

Lemma DateFromUniversityWeek_right_inverse_witness :
  (2014 < MAXYEAR -> exists d, DateFromUniversityWeek 2014 21 3 = Ok d) /\
  (forall d, DateFromUniversityWeek 2014 21 3 = Ok d ->
     AcademicYear d = Ok 2014 /\ UniversityWeek d = Ok 21 /\ weekday d = 3).
Proof.
  apply (DateFromUniversityWeek_right_inverse 2014 21 3);
    unfold MINYEAR, MAXYEAR; lia.
Defined.

(** * Corresponding dates *)

(** X10. [FindCorrespondingDate] moves a date by the distance between the two
    week-one Mondays: the result is as far from [WeekOne(ayear)] as the date
    is from the week one of its own academic year, so it falls on the same
    weekday; onto its own academic year a date is mapped to itself. *)
Theorem FindCorrespondingDate_shift (d : date) (a ayear : Z) :
  valid_date d -> AcademicYear d = Ok a -> 1 <= a ->
  FindCorrespondingDate d a = Ok d /\
  (forall d', FindCorrespondingDate d ayear = Ok d' ->
     exists w w', WeekOne a = Ok w /\ WeekOne ayear = Ok w' /\
                  date_sub_days d' w' = date_sub_days d w /\
                  weekday d' = weekday d).
Proof.
  intros Hv HA H1.
  destruct (anchor_facts d a Hv HA H1) as (Ha & Hle & HU).
  unfold FindCorrespondingDate. rewrite HU. cbn [bind]. split.
  - apply DateFromUniversityWeek_inverse; auto.
  - intros d' H.
    assert (Hy : 1 <= ayear <= 9999).
    { unfold DateFromUniversityWeek in H.
      destruct (WeekOne ayear) as [w'|e] eqn:E; [|discriminate].
      exact (WeekOne_ok_year _ _ E). }
    destruct (DateFromUniversityWeek_value _ _ _ _ Hy H) as (Hv' & Ho').
    exists (WeekOne_date a), (WeekOne_date ayear).
    rewrite !WeekOne_eq by auto. split; [reflexivity|]. split; [reflexivity|].
    destruct (WeekOne_date_facts a Ha) as (_ & _ & _ & _ & HwW).
    destruct (WeekOne_date_facts ayear Hy) as (_ & _ & _ & _ & HwW').
    unfold date_sub_days, weekday in *.
    set (oW := toordinal (WeekOne_date a)) in *.
    set (oW' := toordinal (WeekOne_date ayear)) in *.
    set (od := toordinal d) in *. rewrite Ho'.
    clearbody oW oW' od. split; Z.div_mod_to_equations; lia.
Qed.

Lemma FindCorrespondingDate_shift_witness :
  FindCorrespondingDate (mkdate 2015 1 12) 2014 = Ok (mkdate 2015 1 12) /\
  (forall d', FindCorrespondingDate (mkdate 2015 1 12) 2022 = Ok d' ->
     exists w w', WeekOne 2014 = Ok w /\ WeekOne 2022 = Ok w' /\
                  date_sub_days d' w' = date_sub_days (mkdate 2015 1 12) w /\
                  weekday d' = weekday (mkdate 2015 1 12)).
Proof.
  apply (FindCorrespondingDate_shift (mkdate 2015 1 12) 2014 2022);
    try reflexivity. lia.
Defined.

(** X11. For a date in university week 1..52, [FindCorrespondingDate] onto an
    academic year before 9999 returns a date of that academic year, in the
    same university week, on the same weekday. *)
Theorem FindCorrespondingDate_keeps_week (d : date) (uweek ayear : Z) :
  valid_date d -> UniversityWeek d = Ok uweek -> uweek <= 52 ->
  MINYEAR <= ayear < MAXYEAR ->
  exists d',
    FindCorrespondingDate d ayear = Ok d' /\
    AcademicYear d' = Ok ayear /\ UniversityWeek d' = Ok uweek /\
    weekday d' = weekday d.
Proof.
  unfold MINYEAR, MAXYEAR. intros Hv HU Hu Ha.
  pose proof (UniversityWeek_bounds d uweek Hv HU) as Hu1.
  unfold FindCorrespondingDate. rewrite HU. cbn [bind].
  pose proof (weekday_range d) as Hw.
  destruct (DateFromUniversityWeek_returns ayear uweek (weekday d)
              ltac:(lia) ltac:(lia) ltac:(lia)) as (d' & Hd').
  exists d'. split; [exact Hd'|].
  destruct (DateFromUniversityWeek_value ayear uweek (weekday d) d'
              ltac:(lia) Hd') as (Hv' & Ho').
  destruct (WeekOne_date_facts ayear ltac:(lia)) as (_ & _ & _ & _ & HwW).
  unfold weekday in HwW.
  assert (HA : AcademicYear d' = Ok ayear).
  { apply (AcademicYear_ordinal d' ayear Hv' ltac:(lia)). split; [lia|].
    intros Hlt. pose proof (WeekOne_date_gap ayear ltac:(lia)). lia. }
  split; [exact HA|].
  destruct (anchor_facts d' ayear Hv' HA ltac:(lia)) as (_ & _ & ->).
  unfold weekday at 1. rewrite Ho'.
  set (oW := toordinal (WeekOne_date ayear)) in *.
  set (wd := weekday d) in *. clearbody oW wd.
  split; [f_equal|]; Z.div_mod_to_equations; lia.
Qed.

Lemma FindCorrespondingDate_keeps_week_witness :
  exists d',
    FindCorrespondingDate (mkdate 2015 1 12) 2022 = Ok d' /\
    AcademicYear d' = Ok 2022 /\ UniversityWeek d' = Ok 21 /\
    weekday d' = weekday (mkdate 2015 1 12).
Proof.
  apply (FindCorrespondingDate_keeps_week (mkdate 2015 1 12) 21 2022).
  - reflexivity.
  - vm_compute. reflexivity.
  - lia.
  - unfold MINYEAR, MAXYEAR. lia.
Defined.

(** X12. A date in university week 53, taken onto an academic year of only 52
    weeks, lands in week 1 of the academic year after it; onto an academic
    year of 53 weeks it stays in week 53. *)
Theorem FindCorrespondingDate_week_53 (d : date) (ayear : Z) (w w' : date) :
  valid_date d -> UniversityWeek d = Ok 53 ->
  WeekOne ayear = Ok w -> WeekOne (ayear + 1) = Ok w' ->
  exists d',
    FindCorrespondingDate d ayear = Ok d' /\ weekday d' = weekday d /\
    ((date_sub_days w' w = 53 * 7 /\
      AcademicYear d' = Ok ayear /\ UniversityWeek d' = Ok 53) \/
     (date_sub_days w' w = 52 * 7 /\
      AcademicYear d' = Ok (ayear + 1) /\ UniversityWeek d' = Ok 1)).
Proof.
  intros Hv HU Hw Hw'.
  pose proof (WeekOne_ok_year _ _ Hw) as Ha.
  pose proof (WeekOne_ok_year _ _ Hw') as Ha'.
  rewrite WeekOne_eq in Hw, Hw' by lia. injection Hw as <-. injection Hw' as <-.
  unfold FindCorrespondingDate. rewrite HU. cbn [bind].
  pose proof (weekday_range d) as Hwd.
  destruct (DateFromUniversityWeek_returns ayear 53 (weekday d)
              ltac:(lia) ltac:(lia) ltac:(lia)) as (d' & Hd').
  exists d'. split; [exact Hd'|].
  destruct (DateFromUniversityWeek_value ayear 53 (weekday d) d'
              ltac:(lia) Hd') as (Hv' & Ho').
  destruct (WeekOne_date_facts ayear ltac:(lia)) as (_ & _ & _ & _ & HwW).
  destruct (WeekOne_date_facts (ayear + 1) ltac:(lia)) as (_ & _ & _ & _ & HwW').
  pose proof (WeekOne_date_gap ayear ltac:(lia)) as G.
  unfold date_sub_days. unfold weekday in HwW, HwW'.
  set (oW := toordinal (WeekOne_date ayear)) in *.
  set (oW' := toordinal (WeekOne_date (ayear + 1))) in *.
  assert (Hwk : weekday d' = weekday d).
  { unfold weekday at 1. rewrite Ho'. set (wd := weekday d) in *.
    clearbody oW wd. Z.div_mod_to_equations. lia. }
  split; [exact Hwk|].
  destruct G as [G|G]; [right|left]; (split; [lia|]).
  - assert (HA : AcademicYear d' = Ok (ayear + 1)).
    { apply (AcademicYear_ordinal d' (ayear + 1) Hv' ltac:(lia)). fold oW'.
      split; [lia|]. intros Hlt.
      pose proof (WeekOne_date_gap (ayear + 1) ltac:(lia)) as G'. fold oW' in G'. lia. }
    split; [exact HA|].
    destruct (anchor_facts d' _ Hv' HA ltac:(lia)) as (_ & _ & ->). fold oW'.
    rewrite Ho'. f_equal. set (wd := weekday d) in *.
    clearbody oW oW' wd. Z.div_mod_to_equations. lia.
  - assert (HA : AcademicYear d' = Ok ayear).
    { apply (AcademicYear_ordinal d' ayear Hv' ltac:(lia)). fold oW oW'.
      split; [lia|]. intros _. lia. }
    split; [exact HA|].
    destruct (anchor_facts d' _ Hv' HA ltac:(lia)) as (_ & _ & ->). fold oW.
    rewrite Ho'. f_equal. set (wd := weekday d) in *.
    clearbody oW oW' wd. Z.div_mod_to_equations. lia.
Qed.

Lemma FindCorrespondingDate_week_53_witness :
  exists d',
    FindCorrespondingDate (mkdate 2018 8 22) 2014 = Ok d' /\
    weekday d' = weekday (mkdate 2018 8 22) /\
    ((date_sub_days (mkdate 2015 8 24) (mkdate 2014 8 25) = 53 * 7 /\
      AcademicYear d' = Ok 2014 /\ UniversityWeek d' = Ok 53) \/
     (date_sub_days (mkdate 2015 8 24) (mkdate 2014 8 25) = 52 * 7 /\
      AcademicYear d' = Ok (2014 + 1) /\ UniversityWeek d' = Ok 1)).
Proof.
  apply (FindCorrespondingDate_week_53 (mkdate 2018 8 22) 2014
           (mkdate 2014 8 25) (mkdate 2015 8 24)).
  - reflexivity.
  - vm_compute. reflexivity.
  - vm_compute. reflexivity.
  - vm_compute. reflexivity.
Defined.

(** * The scan, case by case *)

Section ScanOutcome.

Variable N : Z.
Variable closed_dates : list date.
Variable deadline : datetime.

Local Notation "'base'" := (toordinal (date_part deadline)).
Local Notation "'W'" := (working_days_upto closed_dates deadline).

(** The first day on which the count reaches [N]. *)
Lemma first_crossing K :
  0 < N -> 0 <= K -> N <= W K ->
  exists k, 1 <= k <= K /\ W (k - 1) < N /\ N <= W k.
Proof.
  intros HN HK. replace K with (Z.of_nat (Z.to_nat K)) by lia.
  induction (Z.to_nat K) as [|m IH]; intros HW.
  - change (Z.of_nat 0) with 0 in HW. rewrite working_days_upto_zero in HW. lia.
  - destruct (Z_lt_dec (W (Z.of_nat m)) N) as [Hlt|Hge].
    + exists (Z.of_nat (S m)). split; [lia|].
      replace (Z.of_nat (S m) - 1) with (Z.of_nat m) by lia. auto.
    + destruct (IH ltac:(lia)) as (k & Hk & H1 & H2). exists k.
      split; [lia|auto].
Qed.

(** The scan runs off the end of the calendar when the count has not reached
    [N] by the last representable day. *)
Lemma marking_scan_overflows M :
  0 <= base -> base + M = _MAXORDINAL -> 0 <= M < 1000 -> W M < N ->
  forall m j fuel, 1 <= j <= M + 1 -> Z.of_nat m = M + 1 - j -> (S m <= fuel)%nat ->
    marking_scan fuel N closed_dates deadline (W (j - 1)) j
    = Some (Raise OverflowError).
Proof.
  intros Hb Hmax HM Hlt.
  induction m as [|m IH]; intros j [|fuel] Hj Hm Hf; try lia.
  - assert (j = M + 1) as -> by lia.
    replace (M + 1 - 1) with M by lia.
    apply marking_scan_overflow; lia.
  - pose proof (working_days_upto_mono closed_dates deadline (j - 1) M ltac:(lia)).
    rewrite marking_scan_step by lia.
    replace (j + 1 >? 1000) with false
      by (symmetry; rewrite Z.gtb_ltb; apply Z.ltb_ge; lia).
    rewrite <- working_days_upto_step by lia.
    replace j with (j + 1 - 1) at 1 by lia.
    apply IH; lia.
Qed.

(** What a returned scan has counted. *)
Lemma marking_scan_counted fuel : forall j wd' j',
  1 <= j -> W (j - 1) < N ->
  marking_scan fuel N closed_dates deadline (W (j - 1)) j = Some (Ok (wd', j')) ->
  j < j' <= 1000 /\ wd' = N /\ W (j' - 1) = N /\ W (j' - 2) = N - 1.
Proof.
  induction fuel as [|fuel IH]; intros j wd' j' Hj Hlt H.
  - cbn [marking_scan] in H.
    replace (W (j - 1) <? N) with true in H by (symmetry; apply Z.ltb_lt; lia).
    discriminate.
  - destruct (Z_le_dec 1 (base + j)) as [Hr1|Hr1];
      [destruct (Z_le_dec (base + j) _MAXORDINAL) as [Hr2|Hr2]|];
      [|rewrite marking_scan_overflow in H by lia; discriminate ..].
    rewrite marking_scan_step in H by lia.
    destruct (Z.gtb_spec (j + 1) 1000) as [Hgt|Hle]; [discriminate|].
    rewrite <- working_days_upto_step in H by lia.
    pose proof (working_days_upto_step closed_dates deadline j Hj) as Hs.
    destruct (Z_lt_dec (W j) N) as [Hlt'|Hge].
    + replace j with (j + 1 - 1) in H at 1 by lia.
      apply IH in H; try lia.
      replace (j + 1 - 1) with j by lia. exact Hlt'.
    + rewrite marking_scan_done in H by lia. injection H as <- <-.
      replace (j + 1 - 1) with j by lia. replace (j + 1 - 2) with (j - 1) by lia.
      destruct (working_date _ _); cbn [b2z] in Hs; lia.
Qed.

End ScanOutcome.

(** * Weeks of seven days *)













(** * More on the working-day counter *)

(** X13. With a positive marking window [N], whenever the computation
    returns, the marking deadline is the [N]-th working day after the
    deadline: it is the deadline moved [k] days on, for some [k] from 1 to
    999, with the time of day kept; [N] working days (Monday to Friday, not
    a closed date) lie among the [k] days after the deadline and [N - 1]
    among the first [k - 1]. *)
Theorem marking_deadline_nth_working_day (fuel : nat) (N : Z)
  (closed_days : list datetime) (today deadline : datetime)
  (e : Z) (md : datetime) (w : bool) :
  0 < N ->
  days_since_deadline_from fuel N closed_days today deadline = Some (Ok (e, md, w)) ->
  exists k,
    1 <= k <= 999 /\
    datetime_add_days deadline k = Ok md /\
    micros md = micros deadline /\
    working_days_upto (map date_part closed_days) deadline k = N /\
    working_days_upto (map date_part closed_days) deadline (k - 1) = N - 1.
Proof.
  intros HN H.
  destruct (days_since_deadline_from_inv _ _ _ _ _ _ _ _ H)
    as (de & wd & j & _ & H2 & H3 & _).
  pose proof (working_days_upto_zero (map date_part closed_days) deadline) as W0.
  assert (H2' : marking_scan fuel N (map date_part closed_days) deadline
                  (working_days_upto (map date_part closed_days) deadline (1 - 1)) 1
                = Some (Ok (wd, j))).
  { change (1 - 1) with 0. rewrite W0. exact H2. }
  apply marking_scan_counted in H2'; [|lia|change (1 - 1) with 0; lia].
  destruct H2' as (Hj & _ & Wj & Wj').
  exists (j - 1). split; [lia|]. split; [exact H3|].
  destruct (datetime_add_days_inv _ _ _ H3) as (_ & _ & _ & Em & _).
  split; [exact Em|]. split; [exact Wj|].
  replace (j - 1 - 1) with (j - 2) by lia. exact Wj'.
Qed.

Lemma marking_deadline_nth_working_day_witness :
  exists k,
    1 <= k <= 999 /\
    datetime_add_days easter_deadline k
    = Ok (mkdatetime (mkdate 2023 5 3) 43200000000) /\
    micros (mkdatetime (mkdate 2023 5 3) 43200000000) = micros easter_deadline /\
    working_days_upto (map date_part closed_days_of_source) easter_deadline k
    = DAYS_TO_MARK /\
    working_days_upto (map date_part closed_days_of_source) easter_deadline (k - 1)
    = DAYS_TO_MARK - 1.
Proof.
  apply (marking_deadline_nth_working_day 1000 DAYS_TO_MARK closed_days_of_source
           easter_today easter_deadline 1
           (mkdatetime (mkdate 2023 5 3) 43200000000) true).
  - reflexivity.
  - vm_compute. reflexivity.
Defined.

(** X14. The three ways the computation ends, for a positive marking window
    [N], a valid deadline and a clock reading that keeps
    [deadline + raw_elapsed] representable.  Let the horizon be day 999 after
    the deadline, or 31 December 9999 if that comes first.  The computation
    returns exactly when at least [N] working days lie between the deadline
    and the horizon; otherwise it ends with [sys.exit] if 1000 days after the
    deadline are representable, and with the [OverflowError] of the date
    addition if they are not. *)
Theorem days_since_deadline_from_outcome (fuel : nat) (N : Z)
  (closed_days : list datetime) (today deadline : datetime) :
  0 < N -> valid_datetime deadline -> (1000 <= fuel)%nat ->
  toordinal (date_part deadline) + raw_elapsed today deadline <= _MAXORDINAL ->
  match days_since_deadline_from fuel N closed_days today deadline with
  | Some (Ok _) =>
      N <= working_days_upto (map date_part closed_days) deadline
             (scan_horizon deadline)
  | Some (Raise e) =>
      working_days_upto (map date_part closed_days) deadline
        (scan_horizon deadline) < N /\
      e = (if toordinal (date_part deadline) + 1000 <=? _MAXORDINAL
           then SystemExit else OverflowError)
  | None => False
  end.
Proof.
  intros HN Hd Hf Hr.
  pose proof (toordinal_range _ (proj1 Hd)) as Hb.
  pose proof (working_days_upto_zero (map date_part closed_days) deadline) as W0.
  pose proof (first_pass_ok today deadline ltac:(lia) Hr) as H1.
  unfold scan_horizon.
  remember (Z.min 999 (_MAXORDINAL - toordinal (date_part deadline))) as K eqn:EK.
  destruct (Z_le_dec N (working_days_upto (map date_part closed_days) deadline K))
    as [Hge|Hlt%Z.nle_gt].
  - destruct (first_crossing N (map date_part closed_days) deadline K HN
                ltac:(lia) Hge) as (k & Hk & Hk1 & Hk2).
    pose proof (marking_scan_finds N (map date_part closed_days) deadline k
                  ltac:(lia) ltac:(lia) ltac:(lia) Hk1 Hk2
                  (Z.to_nat (k - 1)) 1 fuel ltac:(lia) ltac:(lia) ltac:(lia)) as Hs.
    change (1 - 1) with 0 in Hs. rewrite W0 in Hs.
    destruct (datetime_add_days_ok deadline k ltac:(lia)) as (md & Hmd & _).
    replace k with (k + 1 - 1) in Hmd at 1 by lia.
    rewrite (days_since_deadline_from_ok N closed_days today deadline fuel
               _ _ _ md H1 Hs Hmd).
    exact Hge.
  - destruct (Z.leb_spec (toordinal (date_part deadline) + 1000) _MAXORDINAL)
      as [Hroom|Hroom].
    + assert (K = 999) as -> by lia.
      pose proof (marking_scan_exhausts N (map date_part closed_days) deadline
                    ltac:(lia) Hroom Hlt (Z.to_nat 999) 1 fuel
                    ltac:(lia) ltac:(lia) ltac:(lia)) as Hs.
      change (1 - 1) with 0 in Hs. rewrite W0 in Hs.
      rewrite (days_since_deadline_from_raise N closed_days today deadline fuel
                 _ _ H1 Hs).
      split; [exact Hlt|reflexivity].
    + assert (K = _MAXORDINAL - toordinal (date_part deadline)) as -> by lia.
      pose proof (marking_scan_overflows N (map date_part closed_days) deadline
                    (_MAXORDINAL - toordinal (date_part deadline))
                    ltac:(lia) ltac:(lia) ltac:(lia) Hlt
                    (Z.to_nat (_MAXORDINAL - toordinal (date_part deadline)))
                    1 fuel ltac:(lia) ltac:(lia) ltac:(lia)) as Hs.
      change (1 - 1) with 0 in Hs. rewrite W0 in Hs.
      rewrite (days_since_deadline_from_raise N closed_days today deadline fuel
                 _ _ H1 Hs).
      split; [exact Hlt|reflexivity].
Qed.

Lemma days_since_deadline_from_outcome_witness :
  match days_since_deadline_from 1000 DAYS_TO_MARK closed_days_of_source
          (mkdatetime (mkdate 9999 12 21) 0) (mkdatetime (mkdate 9999 12 20) 0) with
  | Some (Ok _) =>
      DAYS_TO_MARK <= working_days_upto (map date_part closed_days_of_source)
             (mkdatetime (mkdate 9999 12 20) 0)
             (scan_horizon (mkdatetime (mkdate 9999 12 20) 0))
  | Some (Raise e) =>
      working_days_upto (map date_part closed_days_of_source)
        (mkdatetime (mkdate 9999 12 20) 0)
        (scan_horizon (mkdatetime (mkdate 9999 12 20) 0)) < DAYS_TO_MARK /\
      e = (if toordinal (date_part (mkdatetime (mkdate 9999 12 20) 0)) + 1000
              <=? _MAXORDINAL
           then SystemExit else OverflowError)
  | None => False
  end.
Proof.
  apply (days_since_deadline_from_outcome 1000 DAYS_TO_MARK closed_days_of_source
           (mkdatetime (mkdate 9999 12 21) 0) (mkdatetime (mkdate 9999 12 20) 0)).
  - reflexivity.
  - apply valid_sample; reflexivity.
  - lia.
  - vm_compute. discriminate.
Defined.





Lemma days_since_deadline_returns_witness :
  exists e md w,
    days_since_deadline 1000 friday_today monday_deadline = Some (Ok (e, md, w)).
Proof.
  apply (days_since_deadline_returns 1000 friday_today monday_deadline).
  - apply valid_sample; reflexivity.
  - lia.
  - vm_compute. discriminate.
Defined.

(** * Terms and corresponding dates *)

Lemma TermWeek_week d t tw uweek :
  TermWeek d = Ok (t, tw, uweek) -> UniversityWeek d = Ok uweek.
Proof.
  unfold TermWeek. destruct (UniversityWeek d) as [u|e]; [|discriminate].
  cbn [bind].
  destruct ((u <=? 16) && (u >=? 5)); [congruence|].
  destruct ((u <=? 31) && (u >=? 21)); [congruence|].
  destruct ((u <=? 43) && (u >=? 36)); congruence.
Qed.

Lemma TermWeek_same_week d d' :
  UniversityWeek d' = UniversityWeek d -> TermWeek d' = TermWeek d.
Proof. unfold TermWeek. intros ->. reflexivity. Qed.

(** The date [DateFromUniversityWeek] returns lies in the week and on the
    weekday asked for. *)
Lemma DateFromUniversityWeek_lands a u dow d :
  1 <= a <= 9999 -> 1 <= u <= 52 -> 0 <= dow <= 6 ->
  DateFromUniversityWeek a u dow = Ok d ->
  AcademicYear d = Ok a /\ UniversityWeek d = Ok u /\ weekday d = dow.
Proof.
  intros Ha Hu Hd H.
  destruct (DateFromUniversityWeek_value _ _ _ _ Ha H) as (Hv & Ho).
  destruct (WeekOne_date_facts a Ha) as (_ & _ & _ & _ & HwW).
  unfold weekday in HwW.
  assert (HA : AcademicYear d = Ok a).
  { apply (AcademicYear_ordinal d a Hv Ha). split; [lia|].
    intros Hlt. pose proof (WeekOne_date_gap a ltac:(lia)). lia. }
  split; [exact HA|].
  destruct (anchor_facts d a Hv HA ltac:(lia)) as (_ & _ & ->).
  unfold weekday. rewrite Ho.
  set (oW := toordinal (WeekOne_date a)) in *. clearbody oW.
  split; [f_equal|]; Z.div_mod_to_equations; lia.
Qed.

(** X18. [FindCorrespondingDate] keeps the term: for a date in university
    week 1..52 (so for every date in a term), the date it returns in an
    academic year before 9999 has the same term, term week and university
    week. *)
Theorem FindCorrespondingDate_keeps_term (d : date) (ayear t tw uweek : Z) :
  valid_date d -> TermWeek d = Ok (t, tw, uweek) -> uweek <= 52 ->
  MINYEAR <= ayear < MAXYEAR ->
  exists d',
    FindCorrespondingDate d ayear = Ok d' /\ TermWeek d' = Ok (t, tw, uweek).
Proof.
  unfold MINYEAR, MAXYEAR. intros Hv HT Hu Ha.
  pose proof (TermWeek_week _ _ _ _ HT) as HU.
  pose proof (UniversityWeek_bounds d uweek Hv HU) as Hu1.
  pose proof (weekday_range d) as Hw.
  destruct (DateFromUniversityWeek_returns ayear uweek (weekday d)
              ltac:(lia) ltac:(lia) ltac:(lia)) as (d' & Hd').
  exists d'. unfold FindCorrespondingDate. rewrite HU. cbn [bind].
  split; [exact Hd'|].
  destruct (DateFromUniversityWeek_lands ayear uweek (weekday d) d'
              ltac:(lia) ltac:(lia) ltac:(lia) Hd') as (_ & HU' & _).
  rewrite <- HT. apply TermWeek_same_week. congruence.
Qed.

Lemma FindCorrespondingDate_keeps_term_witness :
  exists d',
    FindCorrespondingDate (mkdate 2015 1 12) 2022 = Ok d' /\
    TermWeek d' = Ok (2, 1, 21).
Proof.
  apply (FindCorrespondingDate_keeps_term (mkdate 2015 1 12) 2022 2 1 21).
  - reflexivity.
  - vm_compute. reflexivity.
  - lia.
  - unfold MINYEAR, MAXYEAR. lia.
Defined.

(** * The permissions of the credentials file *)

Module PyBuiltinsFacts.

Import PyBuiltins.

Lemma oct_digits_acc fuel : forall n acc,
  oct_digits fuel n acc = oct_digits fuel n [] ++ acc.
Proof.
  induction fuel as [|fuel IH]; intros n acc; cbn [oct_digits]; [reflexivity|].
  destruct (n <? 8); [reflexivity|].
  rewrite IH, (IH _ [n mod 8]), <- app_assoc. reflexivity.
Qed.

(** The digits stand for the number, whatever the fuel. *)
Lemma oct_digits_value fuel : forall n acc,
  fold_left (fun a d => 8 * a + d) (oct_digits fuel n acc) 0
  = fold_left (fun a d => 8 * a + d) acc n.
Proof.
  induction fuel as [|fuel IH]; intros n acc; cbn [oct_digits].
  - cbn [fold_left]. f_equal.
  - destruct (n <? 8); [cbn [fold_left]; f_equal|].
    rewrite IH. cbn [fold_left]. f_equal.
    pose proof (Z.div_mod n 8 ltac:(lia)). lia.
Qed.

(** With enough fuel every digit is an octal digit. *)
Lemma oct_digits_octal fuel : forall n acc,
  0 <= n < 2 ^ (Z.of_nat fuel + 3) -> Forall (fun d => 0 <= d < 8) acc ->
  Forall (fun d => 0 <= d < 8) (oct_digits fuel n acc).
Proof.
  induction fuel as [|fuel IH]; intros n acc Hn Hacc; cbn [oct_digits].
  - constructor; [|exact Hacc]. change (2 ^ (Z.of_nat 0 + 3)) with 8 in Hn. exact Hn.
  - destruct (Z.ltb_spec n 8) as [Hlt|Hge]; [constructor; [lia|exact Hacc]|].
    apply IH.
    + replace (Z.of_nat (S fuel) + 3) with (Z.succ (Z.of_nat fuel + 3)) in Hn by lia.
      rewrite Z.pow_succ_r in Hn by lia.
      split; [apply Z.div_pos; lia|].
      apply Z.div_lt_upper_bound; lia.
    + constructor; [|exact Hacc]. apply Z.mod_pos_bound. lia.
Qed.

Lemma oct_fuel n : 0 <= n -> n < 2 ^ (Z.of_nat (S (Z.to_nat (Z.log2 n))) + 3).
Proof.
  intros Hn. pose proof (Z.log2_nonneg n) as Hl.
  replace (Z.of_nat (S (Z.to_nat (Z.log2 n))) + 3) with (Z.succ (Z.log2 n) + 3) by lia.
  rewrite Z.pow_add_r by lia. change (2 ^ 3) with 8.
  destruct (Z.eq_dec n 0) as [->|Hn0]; [reflexivity|].
  pose proof (Z.log2_spec n ltac:(lia)). lia.
Qed.

(** [oct] spends no more fuel than it has: its digits are octal digits and
    stand for the number. *)
Lemma oct_digits_faithful n :
  0 <= n ->
  Forall (fun d => 0 <= d < 8) (oct_digits (S (Z.to_nat (Z.log2 n))) n []) /\
  oct_value (oct_digits (S (Z.to_nat (Z.log2 n))) n []) = n.
Proof.
  intros Hn. split.
  - apply oct_digits_octal; [|constructor]. split; [exact Hn|apply oct_fuel, Hn].
  - unfold oct_value. rewrite oct_digits_value. reflexivity.
Qed.

(** The last three digits of a number of three octal digits or more. *)
Lemma oct_digits_last_three fuel n :
  64 <= n ->
  exists l, oct_digits (S (S (S fuel))) n []
            = l ++ [n / 64 mod 8; n / 8 mod 8; n mod 8].
Proof.
  intros Hn.
  assert (E8 : n / 8 / 8 = n / 64) by (rewrite Z.div_div by lia; reflexivity).
  assert (H8 : 8 <= n / 8) by (apply Z.div_le_lower_bound; lia).
  cbn [oct_digits].
  replace (n <? 8) with false by (symmetry; apply Z.ltb_ge; lia).
  replace (n / 8 <? 8) with false by (symmetry; apply Z.ltb_ge; lia).
  rewrite E8.
  destruct (n / 64 <? 8) eqn:E.
  - exists []. cbn [app]. apply Z.ltb_lt in E.
    rewrite (Z.mod_small (n / 64) 8); [reflexivity|].
    split; [apply Z.div_pos; lia|exact E].
  - rewrite oct_digits_acc. eexists. reflexivity.
Qed.

Lemma last_three_app (l : list Ascii.ascii) a b c :
  last_three (l ++ [a; b; c]) = [a; b; c].
Proof.
  unfold last_three. rewrite length_app. cbn [length].
  replace (length l + 3 - 3)%nat with (length l + 0)%nat by lia.
  rewrite skipn_app, Nat.add_0_r, skipn_all, Nat.sub_diag. reflexivity.
Qed.

Lemma int_three_digits a b c :
  0 <= a < 8 -> 0 <= b < 8 -> 0 <= c < 8 ->
  int [digit_char a; digit_char b; digit_char c] = Ok (100 * a + 10 * b + c).
Proof.
  intros Ha Hb Hc.
  assert (Hd : forall d, 0 <= d < 8 -> digit_value (digit_char d) = Some d).
  { intros d H.
    assert (d = 0 \/ d = 1 \/ d = 2 \/ d = 3 \/ d = 4 \/ d = 5 \/ d = 6 \/ d = 7)
      as C by lia.
    destruct C as [-> | [-> | [-> | [-> | [-> | [-> | [-> | ->]]]]]]]; reflexivity. }
  unfold int. cbn [int_digits]. rewrite !Hd by assumption. f_equal. lia.
Qed.

End PyBuiltinsFacts.

Lemma permissions_value st_mode :
  64 <= st_mode ->
  permissions st_mode
  = Ok (100 * (st_mode / 64 mod 8) + 10 * (st_mode / 8 mod 8) + st_mode mod 8).
Proof.
  intros Hm. unfold permissions, PyBuiltins.oct.
  assert (Hl : 6 <= Z.log2 st_mode)
    by (change 6 with (Z.log2 64); apply Z.log2_le_mono; lia).
  destruct (Z.to_nat (Z.log2 st_mode)) as [|[|f]] eqn:Ef; try lia.
  destruct (PyBuiltinsFacts.oct_digits_last_three f st_mode Hm) as (l & ->).
  rewrite map_app. cbn [map].
  rewrite 2!app_comm_cons, PyBuiltinsFacts.last_three_app.
  apply PyBuiltinsFacts.int_three_digits; apply Z.mod_pos_bound; lia.
Qed.

(** X19. The credentials check of [MailAPI] reads the last three octal
    digits of [st_mode] as a decimal number, and so looks at the nine
    permission bits only: a file (whose [st_mode] has at least three octal
    digits, as that of every regular file has) is accepted exactly when these
    bits are [0o400] or [0o600]; the file type and the set-uid, set-gid and
    sticky bits play no part. *)
Theorem credentials_check_reads_permission_bits (st_mode : Z) :
  64 <= st_mode ->
  permissions_refused st_mode
  = Ok (negb ((st_mode mod 512 =? 256) || (st_mode mod 512 =? 384))).
Proof.
  intros Hm. unfold permissions_refused. rewrite permissions_value by exact Hm.
  cbn [bind]. do 2 f_equal.
  pose proof (Z.mod_pos_bound (st_mode / 64) 8 ltac:(lia)) as B2.
  pose proof (Z.mod_pos_bound (st_mode / 8) 8 ltac:(lia)) as B1.
  pose proof (Z.mod_pos_bound st_mode 8 ltac:(lia)) as B0.
  assert (E : st_mode mod 512
              = 64 * (st_mode / 64 mod 8) + 8 * (st_mode / 8 mod 8) + st_mode mod 8).
  { clear B2 B1 B0. Z.div_mod_to_equations. lia. }
  rewrite E.
  set (a := st_mode / 64 mod 8) in *. set (b := st_mode / 8 mod 8) in *.
  set (c := st_mode mod 8) in *. clearbody a b c.
  f_equal.
  - destruct (Z.eqb_spec (100 * a + 10 * b + c) 400);
      destruct (Z.eqb_spec (64 * a + 8 * b + c) 256); try reflexivity; lia.
  - destruct (Z.eqb_spec (100 * a + 10 * b + c) 600);
      destruct (Z.eqb_spec (64 * a + 8 * b + c) 384); try reflexivity; lia.
Qed.

Lemma credentials_check_reads_permission_bits_witness :
  permissions_refused 36224
  = Ok (negb ((36224 mod 512 =? 256) || (36224 mod 512 =? 384))).
Proof. apply (credentials_check_reads_permission_bits 36224). lia. Defined.
